(** * UniTAB-colossalai: the training / evaluation orchestrator of [main.py]

    A shallow embedding of the function [main] of [src/main.py] (lines 274-630)
    and of its nested helper [build_evaluator_list], followed by the properties
    of the orchestrator that the specification states and by further
    properties of its phases.

    Conventions of the embedding.
    - [args], the [argparse.Namespace] that [main] receives and mutates in
      place, is the record [Args.t]; it is read after the dataset
      configuration document has been merged into it (line 257), and holds
      the attributes [main] reads (a configuration that lacks one of them is
      outside the model).  The two fields whose Python type the code inspects
      ([GT_type], [refexp_dataset_name]) and the two path fields cycled with
      them are dynamically typed values [PyVal].
    - Writes (checkpoints, the log) and the calls to the training and
      evaluation collaborators are recorded as events; console output and
      the failure of a write are not modelled.
    - A Python exception is a value of [exn]; a computation that may raise
      returns a [result].
    - The shared mutable objects ([args]) and the outside world (the calls
      issued to collaborators, in order) live in [World] and are threaded by
      the monad [M]; the state reached when an exception is raised is kept.
      Local variables of [main] are passed explicitly.  A local that the code
      may read before binding it is an [option] ([None]: unbound).
    - Everything [main] imports (torch, numpy, colossalai, deepspeed and the
      repository's own [datasets], [engine], [models], [util] packages) is a
      collaborator: a field of the class [Collab].  Nothing is assumed of
      them except where a theorem lists a hypothesis.
    - A Python [float] is an IEEE-754 binary64 number: Rocq's primitive
      [float]. *)

From Stdlib Require Import ZArith Floats.
From stdpp Require Import base strings list gmap.

Open Scope Z_scope.

(** ** Python values and exceptions *)

(** The values a JSON configuration document gives the override fields: a
    string, or a list. *)
#[warnings="-register-all"] Inductive PyVal : Type :=
| PStr (s : string)
| PList (l : list PyVal).

Inductive exn : Type :=
| RuntimeError (msg : string)
| AssertionError (msg : string)
| NameError (name : string)
| UnboundLocalError (name : string)
| KeyError (key : string)
| AttributeError (attr : string)
| FileNotFoundError (path : string)
| IndexError
| TypeError
| ZeroDivisionError
| CollaboratorError (who : string).

Inductive result (A : Type) : Type :=
| Ok (a : A)
| Raise (e : exn).
Arguments Ok {A} a.
Arguments Raise {A} e.

(** [type(v) == type([])] *)
Definition is_list (v : PyVal) : bool :=
  match v with PList _ => true | PStr _ => false end.

(** The characters of a Python [str], which is indexed by code point.  A
    string of the model holds the bytes of the UTF-8 encoding, where a byte
    [10xxxxxx] continues the character begun before it. *)
Definition is_continuation (c : Ascii.ascii) : bool :=
  (128 <=? Ascii.nat_of_ascii c)%nat && (Ascii.nat_of_ascii c <? 192)%nat.

Fixpoint code_points_from (cur s : string) : list string :=
  match s with
  | EmptyString => [cur]
  | String c rest =>
      if is_continuation c then code_points_from (cur +:+ String c EmptyString) rest
      else cur :: code_points_from (String c EmptyString) rest
  end.

Definition code_points (s : string) : list string :=
  match s with
  | EmptyString => []
  | String c rest => code_points_from (String c EmptyString) rest
  end.

(** [v[i]] for [i >= 0]: an element of a list, a one-character string of a
    string, [IndexError] out of range. *)
Definition py_getitem (v : PyVal) (i : nat) : result PyVal :=
  match v with
  | PList l => match l !! i with Some x => Ok x | None => Raise IndexError end
  | PStr s =>
      match code_points s !! i with Some ch => Ok (PStr ch) | None => Raise IndexError end
  end.

(** [v == s] for a string literal [s]. *)
Definition py_eq_str (v : PyVal) (s : string) : bool :=
  match v with PStr s' => String.eqb s' s | PList _ => false end.

(** [len(v)] *)
Definition py_len (v : PyVal) : nat :=
  match v with PList l => length l | PStr s => length (code_points s) end.

(** [needle in hay] on strings. *)
Fixpoint contains (needle hay : string) : bool :=
  String.prefix needle hay ||
  match hay with
  | EmptyString => false
  | String _ rest => contains needle rest
  end.

(** Truth value of a string: non-empty. *)
Definition truthy (s : string) : bool :=
  match s with EmptyString => false | String _ _ => true end.

(** ** Statistics dictionaries

    A [dict] keeps insertion order, which [items()] follows; assigning to an
    existing key keeps its position. *)

Inductive StatVal : Type :=
| SFloat (f : float)
| SList (l : list float)
| SInt (n : Z).

Definition Stats : Type := list (string * StatVal).

Fixpoint dict_set (d : Stats) (k : string) (v : StatVal) : Stats :=
  match d with
  | [] => [(k, v)]
  | (k', v') :: rest =>
      if String.eqb k' k then (k', v) :: rest else (k', v') :: dict_set rest k v
  end.

(** [d.update({f(k): v for k, v in src.items()})], and the [**src] splice of a
    dict display: the pairs of [src], keys renamed, assigned in order. *)
Definition dict_update_with (f : string → string) (d src : Stats) : Stats :=
  fold_left (fun acc kv => dict_set acc (f (fst kv)) (snd kv)) src d.

(** ** The effective configuration *)

Module Args.

Record t : Type := mk {
  dataset_config : string;
  combine_datasets : list string;
  combine_datasets_val : list string;
  GT_type : PyVal;
  refexp_dataset_name : PyVal;
  flickr_img_path : PyVal;
  coco_path : PyVal;
  flickr_dataset_path : string;
  optimizer : string;
  use_colo_zero : bool;
  ema : bool;
  distributed : bool;
  from_colossalai : bool;
  from_deepspeed : bool;
  eval : bool;
  test : bool;
  do_caption : bool;
  no_detection : bool;
  frozen_weights : option string;
  load : string;
  resume : string;
  output_dir : string;
  start_epoch : Z;
  epochs : Z;
  eval_skip : Z;
  lr_drop : Z
}.

(** The five attributes [main] assigns to. *)
Definition with_mutable (a : t) (gt rn fp cp : PyVal) (se : Z) : t :=
  {| dataset_config := dataset_config a;
     combine_datasets := combine_datasets a;
     combine_datasets_val := combine_datasets_val a;
     GT_type := gt;
     refexp_dataset_name := rn;
     flickr_img_path := fp;
     coco_path := cp;
     flickr_dataset_path := flickr_dataset_path a;
     optimizer := optimizer a;
     use_colo_zero := use_colo_zero a;
     ema := ema a;
     distributed := distributed a;
     from_colossalai := from_colossalai a;
     from_deepspeed := from_deepspeed a;
     eval := eval a;
     test := test a;
     do_caption := do_caption a;
     no_detection := no_detection a;
     frozen_weights := frozen_weights a;
     load := load a;
     resume := resume a;
     output_dir := output_dir a;
     start_epoch := se;
     epochs := epochs a;
     eval_skip := eval_skip a;
     lr_drop := lr_drop a |}.

Definition set_GT_type (v : PyVal) (a : t) : t :=
  with_mutable a v (refexp_dataset_name a) (flickr_img_path a) (coco_path a) (start_epoch a).
Definition set_refexp_dataset_name (v : PyVal) (a : t) : t :=
  with_mutable a (GT_type a) v (flickr_img_path a) (coco_path a) (start_epoch a).
Definition set_flickr_img_path (v : PyVal) (a : t) : t :=
  with_mutable a (GT_type a) (refexp_dataset_name a) v (coco_path a) (start_epoch a).
Definition set_coco_path (v : PyVal) (a : t) : t :=
  with_mutable a (GT_type a) (refexp_dataset_name a) (flickr_img_path a) v (start_epoch a).
Definition set_start_epoch (e : Z) (a : t) : t :=
  with_mutable a (GT_type a) (refexp_dataset_name a) (flickr_img_path a) (coco_path a) e.

(** The four override fields, all at once. *)
Definition set_overrides (gt rn fp cp : PyVal) (a : t) : t :=
  with_mutable a gt rn fp cp (start_epoch a).

End Args.

(** ** Data exchanged with the collaborators *)

(** The evaluators [build_evaluator_list] constructs, with the arguments it
    passes to each constructor; [B] is the type of a COCO annotation store. *)
Inductive Evaluator (B : Type) : Type :=
| FlickrCaptionEvaluator (flickr_path subset : string) (merge_boxes : bool) (exp_id : string)
| CocoEvaluator (base_ds : B) (iou_types : list string) (useCats : bool)
| RefExpEvaluator (base_ds : B) (iou_types : string)
| FlickrEvaluator (flickr_path subset : string) (merge_boxes : bool).
Arguments FlickrCaptionEvaluator {B}.
Arguments CocoEvaluator {B}.
Arguments RefExpEvaluator {B}.
Arguments FlickrEvaluator {B}.

(** A checkpoint file, as a dict: a key that is absent is [None] here; the
    entry ["model_ema"] can also be present and hold Python's [None], which
    is what [main] itself writes when EMA is off (line 568). *)
Record Checkpoint (SD OS : Type) : Type := mkCheckpoint {
  ck_model : option SD;
  ck_model_ema : option (option SD);
  ck_optimizer : option OS;
  ck_epoch : option Z
}.
Arguments mkCheckpoint {SD OS}.
Arguments ck_model {SD OS}.
Arguments ck_model_ema {SD OS}.
Arguments ck_optimizer {SD OS}.
Arguments ck_epoch {SD OS}.

(** The samplers of the training data (lines 366-369). *)
Inductive Sampler : Type := DistributedSampler | RandomSampler.

(** The optimizer classes [main] instantiates. *)
Inductive OptKind : Type := ZeroHybridAdam | SGD | AdamW.

(** The files [main] writes below [output_dir]. *)
Inductive CkptFile : Type :=
| RollingCheckpoint            (* checkpoint.pth *)
| EpochCheckpoint (epoch : Z)  (* checkpoint{epoch:04}.pth *)
| BestCheckpoint.              (* BEST_checkpoint.pth *)

(** ** The collaborators

    What [main] calls and does not define.  A collaborator that can raise
    returns a [result]; one that mutates its argument in place (a module, an
    optimizer) returns the new value. *)
Class Collab : Type := {
  Model : Type;       (* a [torch.nn.Module] with its weights *)
  Optim : Type;       (* an optimizer with its state *)
  StateDict : Type;   (* [module.state_dict()] *)
  OptState : Type;    (* [optimizer.state_dict()] *)
  Dataset : Type;     (* a dataset, and the loader wrapped around it *)
  BaseDs : Type;      (* a COCO annotation store *)
  Engine : Type;      (* a colossalai or deepspeed engine *)

  (* models.build_model(args), with the ColoInitContext / ZeroDDP wrapping or
     model.to(device) of lines 274-289 *)
  build_model : Args.t → result Model;
  (* sum(p.numel() for p in model.parameters() if p.requires_grad) *)
  count_parameters : Model → Z;
  (* the optimizer constructors of lines 326-335 *)
  make_optimizer : OptKind → Model → Args.t → Optim;

  (* datasets.build_dataset(name, image_set=..., args=args) *)
  build_dataset : string → string → Args.t → result Dataset;
  (* torch.utils.data.ConcatDataset *)
  ConcatDataset : list Dataset → result Dataset;
  (* datasets.get_coco_api_from_dataset *)
  get_coco_api_from_dataset : Dataset → BaseDs;

  (* the local files torch.load can read, and the URLs
     torch.hub.load_state_dict_from_url can fetch *)
  files : gmap string (Checkpoint StateDict OptState);
  urls : gmap string (Checkpoint StateDict OptState);
  (* module.state_dict() *)
  state_dict : Model → StateDict;
  (* module.load_state_dict(sd, strict=...); [None]: Python's None was passed *)
  load_state_dict : bool → option StateDict → Model → result Model;
  (* module.detr.load_state_dict(sd, strict=False) *)
  detr_load_state_dict : StateDict → Model → result Model;
  (* optimizer.state_dict(), optimizer.load_state_dict(sd) *)
  optimizer_state_dict : Optim → OptState;
  optimizer_load_state_dict : OptState → Optim → result Optim;

  (* colossalai.initialize(model, optimizer=..., ...)[0] *)
  colossalai_initialize : Model → Optim → Engine;
  (* deepspeed.initialize(model=..., optimizer=..., training_data=..., ...)[0:3]:
     the engine, the optimizer and the data loader *)
  deepspeed_initialize : Model → Optim → option Dataset → Engine * Optim * Dataset;

  (* engine.train_one_epoch(model, data_loader, optimizer, epoch, args,
     model_ema, colossalai_engine, deepspeed_engine): the statistics, and the
     model, shadow model and optimizer after the pass *)
  train_one_epoch :
    Model → option Dataset → Optim → Z → Args.t → option Model → option Engine → Engine →
    result (Stats * (Model * option Model * Optim));
  (* engine.evaluate(model, postprocessors, data_loader, evaluator_list, args),
     the postprocessors being build_postprocessors(args, dataset_name) *)
  evaluate :
    Model → string → Dataset → list (Evaluator BaseDs) → Args.t → result Stats;
  (* numpy.mean of a list of floats *)
  np_mean : list float → float
}.

Section Orchestrator.
Context `{C : Collab}.

#[local] Abbreviation checkpoint := (Checkpoint StateDict OptState).

(** ** The world: the shared configuration and the calls issued *)

(** One entry of the log file: the dict [log_stats]. *)
Definition LogRecord : Type := Stats.

Inductive Event : Type :=
| EvBuildModel
| EvMakeOptimizer (kind : OptKind)
| EvBuildDataset (name image_set : string) (a : Args.t)
| EvTorchLoad (path : string)
| EvHubLoad (url : string)
| EvTrainOneEpoch (epoch : Z)
| EvEvaluate (dataset_name : string) (evaluator_list : list (Evaluator BaseDs))
| EvSaveOnMaster (file : CkptFile) (payload : checkpoint)
| EvLogAppend (record : LogRecord)
| EvSaveCheckpoint (file : list CkptFile) (epoch : Z).

Record World : Type := mkWorld {
  args : Args.t;        (* the namespace object, shared and mutated in place *)
  rank : Z;             (* dist.get_rank(): 0 is the leader *)
  trace : list Event    (* calls issued so far, oldest first *)
}.


(** ** The monad of [main] *)

Definition M (A : Type) : Type := World → result A * World.

Definition ret {A} (a : A) : M A := fun w => (Ok a, w).
Definition raise {A} (e : exn) : M A := fun w => (Raise e, w).
Definition bind {A B} (m : M A) (k : A → M B) : M B :=
  fun w => match m w with
           | (Ok a, w') => k a w'
           | (Raise e, w') => (Raise e, w')
           end.
Definition lift {A} (r : result A) : M A := fun w => (r, w).
Definition get_args : M Args.t := fun w => (Ok (args w), w).
Definition modify_args (f : Args.t → Args.t) : M unit :=
  fun w => (Ok tt, mkWorld (f (args w)) (rank w) (trace w)).
Definition emit (e : Event) : M unit :=
  fun w => (Ok tt, mkWorld (args w) (rank w) (trace w ++ [e])).

#[local] Notation "x <- m ;; k" := (bind m (fun x => k))
  (at level 100, m at next level, right associativity).
#[local] Notation "m ;;; k" := (bind m (fun _ => k))
  (at level 100, right associativity).

(** A [for] loop that threads an accumulator through its body. *)
Fixpoint for_acc {A B} (l : list A) (body : A → B → M B) (acc : B) : M B :=
  match l with
  | [] => ret acc
  | x :: rest => acc' <- body x acc ;; for_acc rest body acc'
  end.

(** ** Building the model and the optimizer (lines 274-337) *)

(** The locals [model] (which [model_without_ddp] aliases, or wraps),
    [model_ema] and [optimizer]. *)
Record Nets : Type := mkNets {
  model : Model;
  model_ema : option Model;   (* [None]: Python's None *)
  optimizer : Optim
}.

(** Lines 274-294: [model_ema = deepcopy(model) if args.ema else None]. *)
Definition build_model_phase : M (Model * option Model) :=
  a <- get_args ;;
  emit EvBuildModel ;;;
  m <- lift (build_model a) ;;
  ret (m, if Args.ema a then Some m else None).

(** Lines 326-337. *)
Definition build_optimizer (m : Model) : M Optim :=
  a <- get_args ;;
  if Args.use_colo_zero a then
    if String.eqb (Args.optimizer a) "adam" then
      emit (EvMakeOptimizer ZeroHybridAdam) ;;;
      ret (make_optimizer ZeroHybridAdam m a)
    else raise (AssertionError "use_colo_zero can only be used with adam optimizer")
  else if String.eqb (Args.optimizer a) "sgd" then
    emit (EvMakeOptimizer SGD) ;;;
    ret (make_optimizer SGD m a)
  else if String.eqb (Args.optimizer a) "adam" || String.eqb (Args.optimizer a) "adamw" then
    emit (EvMakeOptimizer AdamW) ;;;
    ret (make_optimizer AdamW m a)
  else raise (RuntimeError ("Unsupported optimizer " +:+ Args.optimizer a)).

(** ** Dataset assembly (lines 339-407) *)

(** [build_dataset(name, image_set=..., args=args)]: the collaborator reads
    the shared configuration as it is at the time of the call. *)
Definition call_build_dataset (name image_set : string) : M Dataset :=
  a <- get_args ;;
  emit (EvBuildDataset name image_set a) ;;;
  lift (build_dataset name image_set a).

(** Lines 351-356, the body of the cycling loop at index [ii]. *)
Definition cycle_body (gttype_cache refexpname_cache flickr_img_path_cache coco_path_cache : PyVal)
    (ii : nat) (dataset_list : list Dataset) : M (list Dataset) :=
  a <- get_args ;;
  name <- lift (match Args.combine_datasets a !! ii with
                | Some x => Ok x
                | None => Raise IndexError
                end) ;;
  gttype <- lift (py_getitem gttype_cache ii) ;;
  refexpname <- lift (py_getitem refexpname_cache ii) ;;
  modify_args (Args.set_GT_type gttype) ;;;
  modify_args (Args.set_refexp_dataset_name refexpname) ;;;
  fp <- lift (py_getitem flickr_img_path_cache ii) ;;
  modify_args (Args.set_flickr_img_path fp) ;;;
  cp <- lift (py_getitem coco_path_cache ii) ;;
  modify_args (Args.set_coco_path cp) ;;;
  d <- call_build_dataset name "train" ;;
  ret (dataset_list ++ [d]).

(** Lines 359-360 and 389-390: the canonical joint values. *)
Definition reset_overrides : M unit :=
  modify_args (Args.set_GT_type (PStr "merged_karpathy")) ;;;
  modify_args (Args.set_refexp_dataset_name (PStr "refcocog")) ;;;
  modify_args (Args.set_flickr_img_path (PStr "data/Flickr30k/flickr30k_images_split/train")) ;;;
  modify_args (Args.set_coco_path (PStr "data/coco")).

(** Lines 345-364: the training datasets, concatenated. *)
Definition build_train_dataset : M Dataset :=
  a <- get_args ;;
  if is_list (Args.refexp_dataset_name a) then
    dataset_list <-
      for_acc (seq 0 (length (Args.combine_datasets a)))
        (cycle_body (Args.GT_type a) (Args.refexp_dataset_name a)
                    (Args.flickr_img_path a) (Args.coco_path a)) [] ;;
    dataset_train <- lift (ConcatDataset dataset_list) ;;
    reset_overrides ;;;
    ret dataset_train
  else
    dataset_list <-
      for_acc (Args.combine_datasets a)
        (fun name acc => d <- call_build_dataset name "train" ;; ret (acc ++ [d])) [] ;;
    lift (ConcatDataset dataset_list).

(** Lines 339-364: [dataset_train], [None] in evaluation-only mode. *)
Definition train_data_phase : M (option Dataset) :=
  a <- get_args ;;
  if (length (Args.combine_datasets a) =? 0)%nat && negb (Args.eval a) then
    raise (RuntimeError "Please provide at least one training dataset")
  else if negb (Args.eval a) then
    dataset_train <- build_train_dataset ;;
    ret (Some dataset_train)
  else ret None.

(** Lines 343 and 366-369: [sampler_train], [None] in evaluation-only
    mode.  The [DataLoader] of lines 371-378 wraps [dataset_train]: the same
    handle stands for both. *)
Definition make_sampler (a : Args.t) (dataset_train : option Dataset) : option Sampler :=
  match dataset_train with
  | Some _ => Some (if Args.distributed a then DistributedSampler else RandomSampler)
  | None => None
  end.

(** The named tuple [Val_all]; its [evaluator_list] is filled in by
    [_replace] at each evaluation. *)
Record ValEntry : Type := mkVal {
  dataset_name : string;
  dataloader : Dataset;
  base_ds : BaseDs
}.

(** Lines 380-407. *)
Definition val_phase : M (list ValEntry) :=
  a <- get_args ;;
  if (length (Args.combine_datasets_val a) =? 0)%nat then
    raise (RuntimeError "Please provide at leas one validation dataset")
  else
    (if is_list (Args.refexp_dataset_name a) then
       if contains "multitask" (Args.dataset_config a) then reset_overrides
       else raise (AssertionError "")
     else ret tt) ;;;
    for_acc (Args.combine_datasets_val a)
      (fun dset_name val_tuples =>
         dset <- call_build_dataset dset_name "val" ;;
         ret (val_tuples ++ [mkVal dset_name dset (get_coco_api_from_dataset dset)])) [].

(** ** Checkpoint ingestion (lines 409-452) *)

(** Lines 410-413, 426-429 and 439-442: a URL is fetched, anything else is
    opened as a local file. *)
Definition load_checkpoint (src : string) : M checkpoint :=
  if String.prefix "https" src then
    emit (EvHubLoad src) ;;;
    match urls !! src with
    | Some ck => ret ck
    | None => raise (CollaboratorError "torch.hub.load_state_dict_from_url")
    end
  else
    emit (EvTorchLoad src) ;;;
    match files !! src with
    | Some ck => ret ck
    | None => raise (FileNotFoundError src)
    end.

(** [checkpoint["model"]] *)
Definition get_model_entry (ck : checkpoint) : M StateDict :=
  match ck_model ck with
  | Some sd => ret sd
  | None => raise (KeyError "model")
  end.

(** Lines 409-420: the frozen-weights path. *)
Definition frozen_phase (n : Nets) : M Nets :=
  a <- get_args ;;
  match Args.frozen_weights a with
  | Some _ =>
      ck <- load_checkpoint (Args.resume a) ;;
      m <- match ck_model_ema ck with
           | Some (Some sd) => lift (detr_load_state_dict sd (model n))
           | _ => sd <- get_model_entry ck ;; lift (detr_load_state_dict sd (model n))
           end ;;
      ret (mkNets m (if Args.ema a then Some m else model_ema n) (optimizer n))
  | None => ret n
  end.

(** Lines 424-435: the fresh load. *)
Definition load_phase (n : Nets) : M Nets :=
  a <- get_args ;;
  if truthy (Args.load a) then
    ck <- load_checkpoint (Args.load a) ;;
    m <- match ck_model_ema ck with
         | Some v => lift (load_state_dict false v (model n))
         | None => sd <- get_model_entry ck ;; lift (load_state_dict false (Some sd) (model n))
         end ;;
    ret (mkNets m (if Args.ema a then Some m else model_ema n) (optimizer n))
  else ret n.

(** Lines 443-446: the live weights, then the optimizer and the epoch. *)
Definition resume_restore (ck : checkpoint) (n : Nets) : M Nets :=
  sd <- get_model_entry ck ;;
  m <- lift (load_state_dict true (Some sd) (model n)) ;;
  a <- get_args ;;
  match negb (Args.eval a), ck_optimizer ck, ck_epoch ck with
  | true, Some osd, Some e =>
      o <- lift (optimizer_load_state_dict osd (optimizer n)) ;;
      modify_args (Args.set_start_epoch (e + 1)) ;;;
      ret (mkNets m (model_ema n) o)
  | _, _, _ => ret (mkNets m (model_ema n) (optimizer n))
  end.

(** Lines 447-452: the shadow weights. *)
Definition resume_ema (ck : checkpoint) (n : Nets) : M Nets :=
  a <- get_args ;;
  if Args.ema a then
    match ck_model_ema ck with
    | None => ret (mkNets (model n) (Some (model n)) (optimizer n))
    | Some v =>
        match model_ema n with
        | Some shadow =>
            shadow' <- lift (load_state_dict true v shadow) ;;
            ret (mkNets (model n) (Some shadow') (optimizer n))
        | None => raise (AttributeError "load_state_dict")
        end
    end
  else ret n.

(** Lines 438-452: the resume. *)
Definition resume_phase (n : Nets) : M Nets :=
  a <- get_args ;;
  if truthy (Args.resume a) then
    ck <- load_checkpoint (Args.resume a) ;;
    n1 <- resume_restore ck n ;;
    resume_ema ck n1
  else ret n.

(** ** The evaluator dispatcher (lines 454-481)

    A closure over [args]: it reads the configuration at the time of the
    call. *)
Definition build_evaluator_list (a : Args.t) (base_ds : BaseDs) (dataset_name : string)
    (do_caption : bool) : list (Evaluator BaseDs) :=
  let subset := if Args.test a then "test" else "val" in
  let merge_boxes := py_eq_str (Args.GT_type a) "merged" in
  let evaluator_list : list (Evaluator BaseDs) := [] in
  let evaluator_list :=
    if contains "flickr" dataset_name && do_caption then
      evaluator_list ++
        [FlickrCaptionEvaluator (Args.flickr_dataset_path a) subset merge_boxes (Args.output_dir a)]
    else evaluator_list in
  if Args.no_detection a then evaluator_list
  else
    let iou_types := ["bbox"] in
    let evaluator_list := evaluator_list ++ [CocoEvaluator base_ds iou_types false] in
    let evaluator_list :=
      if contains "refexp" dataset_name then evaluator_list ++ [RefExpEvaluator base_ds "bbox"]
      else evaluator_list in
    let evaluator_list :=
      if contains "flickr" dataset_name then
        evaluator_list ++ [FlickrEvaluator (Args.flickr_dataset_path a) subset merge_boxes]
      else evaluator_list in
    evaluator_list.

(** ** Evaluation over the validation entries (lines 486-503 and 577-594) *)

Definition run_evaluation (n : Nets) (val_tuples : list ValEntry) : M Stats :=
  let test_model := match model_ema n with Some me => me | None => model n end in
  for_acc val_tuples
    (fun item test_stats =>
       a <- get_args ;;
       let evaluator_list :=
         build_evaluator_list a (base_ds item) (dataset_name item) (Args.do_caption a) in
       emit (EvEvaluate (dataset_name item) evaluator_list) ;;;
       curr_test_stats <-
         lift (evaluate test_model (dataset_name item) (dataloader item) evaluator_list a) ;;
       ret (dict_update_with id test_stats
              (dict_update_with (fun k => dataset_name item +:+ "_" +:+ k) [] curr_test_stats)))
    [].

(** ** The epoch loop (lines 512-630) *)

(** The locals the loop body reads and rebinds.  [train_stats] is bound by
    the first training pass only; [best_metric] starts at [0.0]. *)
Record Loop : Type := mkLoop {
  nets : Nets;
  train_stats : option Stats;   (* [None]: unbound *)
  best_metric : float
}.

(** The locals bound once before the loop. *)
Record Setup : Type := mkSetup {
  n_parameters : Z;
  sampler_train : option Sampler;       (* [None]: Python's None *)
  data_loader_train : option Dataset;   (* [None]: Python's None *)
  val_tuples : list ValEntry;
  colossalai_engine : option Engine;    (* [None]: Python's None *)
  deepspeed_engine : option Engine      (* [None]: unbound *)
}.

(** Lines 539-555: the training pass sits inside [if args.distributed:]. *)
Definition train_step (S : Setup) (epoch : Z) (ls : Loop) : M Loop :=
  a <- get_args ;;
  if Args.distributed a then
    match sampler_train S with
    | None => raise (AttributeError "set_epoch")
    | Some _ =>
        match deepspeed_engine S with
        | None => raise (UnboundLocalError "deepspeed_engine")
        | Some de =>
            emit (EvTrainOneEpoch epoch) ;;;
            r <- lift (train_one_epoch (model (nets ls)) (data_loader_train S)
                         (optimizer (nets ls)) epoch a (model_ema (nets ls))
                         (colossalai_engine S) de) ;;
            let '(stats, (m, me, o)) := r in
            ret (mkLoop (mkNets m me o) (Some stats) (best_metric ls))
        end
    end
  else ret ls.

(** Line 557: the f-string reads [loss], a name that is bound nowhere in the
    module. *)
Definition log_train_loss (epoch : Z) : M unit :=
  raise (NameError "loss").

(** Lines 559-574: the rolling checkpoint, and the numbered one. *)
Definition checkpoint_step (epoch : Z) (ls : Loop) : M unit :=
  a <- get_args ;;
  if truthy (Args.output_dir a) then
    extra <- (if Args.lr_drop a =? 0 then raise ZeroDivisionError
              else ret (((epoch + 1) mod Args.lr_drop a =? 0) || ((epoch + 1) mod 2 =? 0))) ;;
    let checkpoint_paths :=
      [RollingCheckpoint] ++ (if extra : bool then [EpochCheckpoint epoch] else []) in
    for_acc checkpoint_paths
      (fun checkpoint_path _ =>
         ema_entry <- (if Args.ema a then
                         match model_ema (nets ls) with
                         | Some me => ret (Some (state_dict me))
                         | None => raise (AttributeError "state_dict")
                         end
                       else ret None) ;;
         emit (EvSaveOnMaster checkpoint_path
                 (mkCheckpoint (Some (state_dict (model (nets ls)))) (Some ema_entry)
                    (Some (optimizer_state_dict (optimizer (nets ls)))) (Some epoch))))
      tt
  else ret tt.

(** [epoch % args.eval_skip == 0] *)
Definition is_eval_epoch (epoch : Z) : M bool :=
  a <- get_args ;;
  if Args.eval_skip a =? 0 then raise ZeroDivisionError
  else ret (epoch mod Args.eval_skip a =? 0).

(** Lines 576-596. *)
Definition eval_step (S : Setup) (epoch : Z) (ls : Loop) : M Stats :=
  b <- is_eval_epoch epoch ;;
  if b : bool then run_evaluation (nets ls) (val_tuples S) else ret [].

(** Lines 598-603: the dict [log_stats]. *)
Definition make_log_stats (train_stats test_stats : Stats) (epoch n_parameters : Z) : LogRecord :=
  let d := dict_update_with id [] (dict_update_with (fun k => "train_" +:+ k) [] train_stats) in
  let d := dict_update_with id d (dict_update_with (fun k => "test_" +:+ k) [] test_stats) in
  let d := dict_set d "epoch" (SInt epoch) in
  dict_set d "n_parameters" (SInt n_parameters).

(** Lines 598-607: the record is appended to [log.txt]; the guard on the
    leader (line 605) is commented out. *)
Definition log_step (S : Setup) (epoch : Z) (ls : Loop) (test_stats : Stats) : M unit :=
  match train_stats ls with
  | None => raise (UnboundLocalError "train_stats")
  | Some ts => emit (EvLogAppend (make_log_stats ts test_stats epoch (n_parameters S)))
  end.

(** [[v[1] for k, v in test_stats.items() if "coco_eval_bbox" in k]] *)
Fixpoint bbox_scores (test_stats : Stats) : result (list float) :=
  match test_stats with
  | [] => Ok []
  | (k, v) :: rest =>
      if contains "coco_eval_bbox" k then
        match v with
        | SList l =>
            match l !! 1%nat with
            | Some x =>
                match bbox_scores rest with
                | Ok xs => Ok (x :: xs)
                | Raise e => Raise e
                end
            | None => Raise IndexError
            end
        | _ => Raise TypeError
        end
      else bbox_scores rest
  end.

(** Lines 610-613: the selection metric; [metric_stats] is bound nowhere. *)
Definition selection_metric (test_stats : Stats) : M float :=
  a <- get_args ;;
  if Args.do_caption a then raise (NameError "metric_stats")
  else xs <- lift (bbox_scores test_stats) ;; ret (np_mean xs).

(** [metric > best_metric] *)
Definition float_gt (x y : float) : bool := PrimFloat.ltb y x.

(** Lines 609-630. *)
Definition best_select (epoch : Z) (ls : Loop) (test_stats : Stats) : M Loop :=
  b <- is_eval_epoch epoch ;;
  if b : bool then
    metric <- selection_metric test_stats ;;
    a <- get_args ;;
    if truthy (Args.output_dir a) && float_gt metric (best_metric ls) then
      let checkpoint_paths := [BestCheckpoint] in
      for_acc checkpoint_paths
        (fun _ _ => emit (EvSaveCheckpoint checkpoint_paths epoch)) tt ;;;
      ret (mkLoop (nets ls) (train_stats ls) metric)
    else ret ls
  else ret ls.

(** Lines 539-630: one iteration. *)
Definition epoch_body (S : Setup) (epoch : Z) (ls : Loop) : M Loop :=
  ls <- train_step S epoch ls ;;
  log_train_loss epoch ;;;
  checkpoint_step epoch ls ;;;
  test_stats <- eval_step S epoch ls ;;
  log_step S epoch ls test_stats ;;;
  best_select epoch ls test_stats.

(** Lines 512-531: the engines.  [deepspeed.initialize] also rebinds
    [optimizer] and [data_loader_train]; without it [deepspeed_engine] stays
    unbound. *)
Definition init_engines (n_parameters : Z) (sampler_train : option Sampler)
    (dataset_train : option Dataset) (val_tuples : list ValEntry) (n : Nets) : M (Nets * Setup) :=
  a <- get_args ;;
  let colossalai_engine :=
    if Args.from_colossalai a then Some (colossalai_initialize (model n) (optimizer n))
    else None in
  if Args.from_deepspeed a then
    let '(de, o, loader) := deepspeed_initialize (model n) (optimizer n) dataset_train in
    ret (mkNets (model n) (model_ema n) o,
         mkSetup n_parameters sampler_train (Some loader) val_tuples colossalai_engine (Some de))
  else
    ret (n, mkSetup n_parameters sampler_train dataset_train val_tuples colossalai_engine None).

(** Lines 534-630: [for epoch in range(args.start_epoch, args.epochs)]. *)
Definition training_loop (S : Setup) (n : Nets) : M Loop :=
  a <- get_args ;;
  for_acc (seqZ (Args.start_epoch a) (Args.epochs a - Args.start_epoch a))
    (epoch_body S) (mkLoop n None 0%float).

(** ** [main] (lines 274-635) *)

Definition main : M unit :=
  mm <- build_model_phase ;;
  let n_parameters := count_parameters (fst mm) in
  o <- build_optimizer (fst mm) ;;
  dataset_train <- train_data_phase ;;
  a <- get_args ;;
  let sampler_train := make_sampler a dataset_train in
  val_tuples <- val_phase ;;
  n <- frozen_phase (mkNets (fst mm) (snd mm) o) ;;
  n <- load_phase n ;;
  n <- resume_phase n ;;
  a <- get_args ;;
  if Args.eval a then
    run_evaluation n val_tuples ;;; ret tt
  else
    ne <- init_engines n_parameters sampler_train dataset_train val_tuples n ;;
    training_loop (snd ne) (fst ne) ;;; ret tt.

(** The exit status of the interpreter running the script (lines 637-644):
    an exception that leaves [main] ends the process with status 1. *)
Definition exit_status {A} (r : result A) : Z :=
  match r with Ok _ => 0 | Raise _ => 1 end.

(** ** Predicates used to state the properties *)

(** The shared configuration agrees with [a] except, possibly, on the four
    override fields. *)
Definition same_fixed (a : Args.t) (w : World) : Prop :=
  ∃ gt rn fp cp, args w = Args.set_overrides gt rn fp cp a.

(** No training pass among the calls [t]. *)
Definition no_train (t : list Event) : Prop := ∀ e, EvTrainOneEpoch e ∉ t.

(** What the startup phases maintain, from a world of configuration [a] and
    trace [t0]: the configuration changes on the override fields at most,
    and the calls issued since contain no training pass. *)
Definition startup_inv (a : Args.t) (t0 : list Event) (w : World) : Prop :=
  same_fixed a w ∧ ∃ evs, trace w = t0 ++ evs ∧ no_train evs.

Definition preserves {A} (a : Args.t) (t0 : list Event) (m : M A) : Prop :=
  ∀ w r w', startup_inv a t0 w → m w = (r, w') → startup_inv a t0 w'.

(** [m] maintains [P], whether it returns or raises. *)
Definition keeps {A} (P : World → Prop) (m : M A) : Prop :=
  ∀ w r w', P w → m w = (r, w') → P w'.

(** The configuration satisfies [Q], and every call issued since the trace
    was [t0] satisfies [ok]. *)
Definition stays (Q : Args.t → Prop) (ok : Event → bool) (t0 : list Event)
    (w : World) : Prop :=
  Q (args w) ∧ ∃ evs, trace w = t0 ++ evs ∧ Forall (λ ev, ok ev = true) evs.

(** The writes below [output_dir]: a checkpoint or a line of the log. *)
Definition persists (ev : Event) : bool :=
  match ev with
  | EvSaveOnMaster _ _ | EvLogAppend _ | EvSaveCheckpoint _ _ => true
  | _ => false
  end.

(** A call of [evaluate]. *)
Definition is_evaluate (ev : Event) : bool :=
  match ev with EvEvaluate _ _ => true | _ => false end.

(** No condition on the configuration. *)
Definition anything (a : Args.t) : Prop := True.

(** The configuration of a run that is not evaluation-only. *)
Definition training (a : Args.t) : Prop := Args.eval a = false.

(** Invariant of a phase that builds datasets under a fixed configuration. *)
Definition builds_under (a : Args.t) (rk : Z) (t0 : list Event) (image_set : string)
    (w : World) : Prop :=
  args w = a ∧ rank w = rk ∧
  ∃ evs, trace w = t0 ++ evs ∧
         Forall (λ ev, ∃ name, ev = EvBuildDataset name image_set a) evs.

(** The canonical joint configuration of lines 359-360 and 389-390. *)
Definition canonical (a : Args.t) : Args.t :=
  Args.set_overrides (PStr "merged_karpathy") (PStr "refcocog")
    (PStr "data/Flickr30k/flickr30k_images_split/train") (PStr "data/coco") a.

(** The merge-boxes flag of an evaluator that has one. *)
Definition merge_boxes_of {B} (ev : Evaluator B) : option bool :=
  match ev with
  | FlickrCaptionEvaluator _ _ mb _ => Some mb
  | FlickrEvaluator _ _ mb => Some mb
  | _ => None
  end.

(** The one load a path issues from source [src]. *)
Definition load_event (src : string) : Event :=
  if String.prefix "https" src then EvHubLoad src else EvTorchLoad src.

(** The call [run_evaluation] issues for one validation entry. *)
Definition evaluate_event (a : Args.t) (item : ValEntry) : Event :=
  EvEvaluate (dataset_name item)
    (build_evaluator_list a (base_ds item) (dataset_name item) (Args.do_caption a)).

(** A call of [train_one_epoch]. *)
Definition is_train (ev : Event) : bool :=
  match ev with EvTrainOneEpoch _ => true | _ => false end.

(** The configuration of an evaluation-only run that starts at epoch [se]. *)
Definition evaluating (se : Z) (a : Args.t) : Prop :=
  Args.eval a = true ∧ Args.start_epoch a = se.

End Orchestrator.

(** ** A concrete set of collaborators

    Small stand-ins on which the model runs: weights and state dicts are
    version strings, a dataset is the text of its name and of the ground-truth
    type it was built under, the optimizer state is a step counter. *)
Module Demo.

Definition show (v : PyVal) : string :=
  match v with PStr s => s | PList _ => "<list>" end.

(** A stand-in for [numpy.mean]: the sum is taken from left to right, as
    numpy takes it for fewer than eight elements (it sums longer arrays
    pairwise, which this stand-in does not follow), and divided by the
    length; of the empty list it is NaN.  The properties are stated for any
    [np_mean]; the runs below use it on one score at most. *)
Definition mean (l : list float) : float :=
  (fold_left PrimFloat.add l 0 / PrimFloat.of_uint63 (Uint63.of_Z (Z.of_nat (length l))))%float.

(** A checkpoint of epoch 4 without a "model_ema" entry, and one of epoch 9
    with EMA weights. *)
Definition raw_plain : Checkpoint string Z :=
  mkCheckpoint (Some "w-epoch4") None (Some 7) (Some 4).
Definition raw_ema : Checkpoint string Z :=
  mkCheckpoint (Some "w-epoch9") (Some (Some "ema-epoch9")) (Some 12) (Some 9).

#[export] Instance collab : Collab := {|
  Model := string;
  Optim := Z;
  StateDict := string;
  OptState := Z;
  Dataset := string;
  BaseDs := string;
  Engine := unit;
  build_model := fun _ => Ok "w-init";
  count_parameters := fun _ => 1000;
  make_optimizer := fun _ _ _ => 0;
  build_dataset := fun name image_set a =>
    Ok (name +:+ "/" +:+ image_set +:+ "/" +:+ show (Args.GT_type a));
  ConcatDataset := fun l =>
    match l with
    | [] => Raise (AssertionError "datasets should not be an empty iterable")
    | _ => Ok (fold_right (fun d acc => d +:+ ";" +:+ acc) "" l)
    end;
  get_coco_api_from_dataset := fun d => "coco:" +:+ d;
  files := {[ "ckpt.pth" := raw_plain; "ema.pth" := raw_ema ]};
  urls := ∅;
  state_dict := fun m => m;
  load_state_dict := fun _ sd _ =>
    match sd with Some x => Ok x | None => Raise TypeError end;
  detr_load_state_dict := fun sd _ => Ok sd;
  optimizer_state_dict := fun o => o;
  optimizer_load_state_dict := fun sd _ => Ok sd;
  colossalai_initialize := fun _ _ => tt;
  deepspeed_initialize := fun _ o d => (tt, o, default "" d);
  train_one_epoch := fun m _ o _ _ me _ _ =>
    Ok ([("loss", SFloat 1%float)], (m, me, o + 1));
  evaluate := fun _ _ _ _ _ => Ok [("coco_eval_bbox", SList [0.25%float; 0.5%float])];
  np_mean := mean
|}.

Definition ckpt_plain : Checkpoint StateDict OptState := raw_plain.
Definition ckpt_ema : Checkpoint StateDict OptState := raw_ema.

(** A configuration: the defaults of the argument parser, but for the fields
    given. *)
Definition cfg (cds cdv : list string) (gt rn fp cp : PyVal) (ema eval : bool)
    (frozen : option string) (resume output_dir : string) : Args.t :=
  Args.mk "configs/flickr.json" cds cdv gt rn fp cp "data/flickr" "adam"
    false ema false false false eval false false false frozen "" resume output_dir
    0 40 1 35.

(** The defaults: one training and one validation dataset, scalar overrides. *)
Definition default_cfg : Args.t :=
  cfg ["flickr"] ["flickr"] (PStr "") (PStr "") (PStr "") (PStr "") false false None "" "".

(** The two-dataset multi-task configuration. *)
Definition multitask_cfg : Args.t :=
  cfg ["flickr"; "refcocog"] ["flickr"]
    (PList [PStr "merged"; PStr "merged_karpathy"])
    (PList [PStr "refcoco"; PStr "refcocog"])
    (PList [PStr "data/f30k"; PStr "data/f30k_b"])
    (PList [PStr "data/coco_a"; PStr "data/coco_b"])
    false false None "" "".

Definition world (a : Args.t) (rank : Z) : World := mkWorld a rank [].

Definition nets0 : Nets := mkNets "w-init" None 0.
Definition nets_ema : Nets := mkNets "w-init" (Some "w-init") 0.

End Demo.

(** ** A second set of collaborators

    The stand-ins of [Demo], with a dataset that cannot be built (the one
    named "broken"), evaluation statistics that hold a "coco_eval_bbox" entry
    only when detection is on, and three more checkpoint files: one saved
    with EMA off, one that holds the weights only, one that holds nothing. *)
Module Cases.

Definition raw_no_ema : Checkpoint string Z :=
  mkCheckpoint (Some "w-epoch2") (Some None) (Some 3) (Some 2).
Definition raw_weights : Checkpoint string Z :=
  mkCheckpoint (Some "w-only") None None None.
Definition raw_empty : Checkpoint string Z :=
  mkCheckpoint None None None None.

Definition collab : Collab := {|
  Model := string;
  Optim := Z;
  StateDict := string;
  OptState := Z;
  Dataset := string;
  BaseDs := string;
  Engine := unit;
  build_model := fun _ => Ok "w-init";
  count_parameters := fun _ => 1000;
  make_optimizer := fun _ _ _ => 0;
  build_dataset := fun name image_set a =>
    if String.eqb name "broken" then Raise (CollaboratorError "build_dataset")
    else Ok (name +:+ "/" +:+ image_set +:+ "/" +:+ Demo.show (Args.GT_type a));
  ConcatDataset := fun l =>
    match l with
    | [] => Raise (AssertionError "datasets should not be an empty iterable")
    | _ => Ok (fold_right (fun d acc => d +:+ ";" +:+ acc) "" l)
    end;
  get_coco_api_from_dataset := fun d => "coco:" +:+ d;
  files := {[ "ckpt.pth" := Demo.raw_plain; "ema.pth" := Demo.raw_ema;
              "noema.pth" := raw_no_ema; "weights.pth" := raw_weights;
              "empty.pth" := raw_empty ]};
  urls := ∅;
  state_dict := fun m => m;
  load_state_dict := fun _ sd _ =>
    match sd with Some x => Ok x | None => Raise TypeError end;
  detr_load_state_dict := fun sd _ => Ok sd;
  optimizer_state_dict := fun o => o;
  optimizer_load_state_dict := fun sd _ => Ok sd;
  colossalai_initialize := fun _ _ => tt;
  deepspeed_initialize := fun _ o d => (tt, o, default "" d);
  train_one_epoch := fun m _ o _ _ me _ _ =>
    Ok ([("loss", SFloat 1%float)], (m, me, o + 1));
  evaluate := fun _ _ _ _ a =>
    if Args.no_detection a then Ok [("loss", SFloat 1%float)]
    else Ok [("coco_eval_bbox", SList [0.25%float; 0.5%float]); ("loss", SFloat 1%float)];
  np_mean := Demo.mean
|}.

Definition ckpt_no_ema : Checkpoint (StateDict (Collab := collab)) (OptState (Collab := collab)) :=
  raw_no_ema.
Definition ckpt_weights : Checkpoint (StateDict (Collab := collab)) (OptState (Collab := collab)) :=
  raw_weights.

(** A configuration: the defaults of the argument parser, but for the fields
    given. *)
Definition cfg (dataset_config : string) (cds cdv : list string) (gt rn fp cp : PyVal)
    (optimizer : string) (ema distributed eval no_detection : bool)
    (frozen : option string) (load resume output_dir : string) (epochs : Z) : Args.t :=
  Args.mk dataset_config cds cdv gt rn fp cp "data/flickr" optimizer
    false ema distributed false false eval false false no_detection frozen load resume
    output_dir 0 epochs 1 35.

(** Single-task configurations: scalar overrides. *)
Definition single (cds cdv : list string) (optimizer : string)
    (ema distributed eval no_detection : bool)
    (frozen : option string) (load resume output_dir : string) (epochs : Z) : Args.t :=
  cfg "configs/flickr.json" cds cdv (PStr "") (PStr "") (PStr "") (PStr "")
    optimizer ema distributed eval no_detection frozen load resume output_dir epochs.

(** The defaults, and the defaults with an output directory. *)
Definition single_cfg : Args.t :=
  single ["flickr"] ["flickr"] "adam" false false false false None "" "" "" 40.

(** Multi-task configurations: two datasets, each with its overrides. *)
Definition multi (dataset_config : string) (cds cdv : list string) (gt : PyVal)
    (eval : bool) : Args.t :=
  cfg dataset_config cds cdv gt
    (PList [PStr "refcoco"; PStr "refcocog"])
    (PList [PStr "data/f30k"; PStr "data/f30k_b"])
    (PList [PStr "data/coco_a"; PStr "data/coco_b"])
    "adam" false false eval false None "" "" "" 40.

Definition merged_types : PyVal := PList [PStr "merged"; PStr "separate"].

Definition world (a : Args.t) (rank : Z) : World (C := collab) := mkWorld a rank [].

Definition nets0 : Nets (C := collab) := mkNets (C := collab) "w-init" None 0.
Definition nets_ema : Nets (C := collab) :=
  mkNets (C := collab) "w-init" (Some "w-shadow") 0.

(** The calls of a training run up to the loop. *)
Definition startup_calls (a : Args.t) : list (Event (C := collab)) :=
  [EvBuildModel; EvMakeOptimizer AdamW; EvBuildDataset "flickr" "train" a;
   EvBuildDataset "flickr" "val" a].

End Cases.

(** Unfolds the monad's operations. *)
Ltac munfold :=
  unfold bind, ret, raise, lift, get_args, modify_args, emit in *.

(** * Properties *)

Section Properties.
Context `{C : Collab}.

#[local] Abbreviation checkpoint := (Checkpoint StateDict OptState).

(** ** The helpers on concrete values *)

Example contains_marker :
  contains "flickr" "flickr_test" = true ∧ contains "refexp" "flickr_test" = false ∧
  contains "coco_eval_bbox" "refcoco_coco_eval_bbox" = true ∧ contains "" "" = true.
Proof. repeat split; reflexivity. Qed.

Example py_getitem_values :
  py_getitem (PList [PStr "merged"; PStr "merged_karpathy"]) 1 = Ok (PStr "merged_karpathy") ∧
  py_getitem (PList [PStr "merged"]) 1 = Raise IndexError ∧
  py_getitem (PStr "merged") 1 = Ok (PStr "e") ∧
  py_getitem (PStr "") 0 = Raise IndexError ∧
  py_getitem (PStr "été") 2 = Ok (PStr "é") ∧
  py_getitem (PStr "été") 3 = Raise IndexError ∧
  py_len (PStr "été") = 3%nat.
Proof. repeat split; reflexivity. Qed.

Example dict_set_keeps_position :
  dict_set [("a", SInt 1); ("b", SInt 2)] "a" (SInt 3) = [("a", SInt 3); ("b", SInt 2)] ∧
  dict_set [("a", SInt 1)] "c" (SInt 3) = [("a", SInt 1); ("c", SInt 3)].
Proof. repeat split; reflexivity. Qed.

Example bbox_scores_values :
  bbox_scores [("flickr_coco_eval_bbox", SList [0.25%float; 0.5%float]);
               ("flickr_loss", SFloat 1%float)] = Ok [0.5%float] ∧
  bbox_scores [("flickr_coco_eval_bbox", SList [0.25%float])] = Raise IndexError ∧
  bbox_scores [("flickr_coco_eval_bbox", SFloat 1%float)] = Raise TypeError.
Proof. repeat split; reflexivity. Qed.

(** ** Dataset assembly *)

Lemma same_fixed_refl (w : World) : same_fixed (args w) w.
Proof.
  exists (Args.GT_type (args w)), (Args.refexp_dataset_name (args w)),
         (Args.flickr_img_path (args w)), (Args.coco_path (args w)).
  destruct (args w). reflexivity.
Qed.

(** One turn of the cycling loop: the four fields hold the elements of index
    [ii] when the dataset is built, and stay so afterwards. *)
Lemma cycle_body_ok (a : Args.t) (gts rns fps cps : list PyVal) (ii : nat)
    (acc : list Dataset) (w : World) (name : string) (gt rn fp cp : PyVal) (d : Dataset) :
  same_fixed a w →
  Args.combine_datasets a !! ii = Some name →
  gts !! ii = Some gt → rns !! ii = Some rn → fps !! ii = Some fp → cps !! ii = Some cp →
  build_dataset name "train" (Args.set_overrides gt rn fp cp a) = Ok d →
  cycle_body (PList gts) (PList rns) (PList fps) (PList cps) ii acc w =
    (Ok (acc ++ [d]),
     mkWorld (Args.set_overrides gt rn fp cp a) (rank w)
       (trace w ++ [EvBuildDataset name "train" (Args.set_overrides gt rn fp cp a)])).
Proof.
  intros (g & r & f & c & Hw) Hname Hgt Hrn Hfp Hcp Hbuild.
  unfold cycle_body, call_build_dataset. munfold.
  rewrite Hw. cbn. rewrite Hname, Hgt, Hrn. cbn. rewrite Hfp. cbn. rewrite Hcp. cbn.
  change (Args.set_coco_path cp _) with (Args.set_overrides gt rn fp cp a).
  rewrite Hbuild. reflexivity.
Qed.

(** The cycling loop over the indices [s, s + n). *)
Lemma cycle_loop_ok (a : Args.t) (gts rns fps cps : list PyVal) (ds : list Dataset) :
  ∀ (n s : nat) (acc : list Dataset) (w : World),
    same_fixed a w →
    (∀ i, (s ≤ i < s + n)%nat →
       ∃ name gt rn fp cp d,
         Args.combine_datasets a !! i = Some name ∧
         gts !! i = Some gt ∧ rns !! i = Some rn ∧ fps !! i = Some fp ∧ cps !! i = Some cp ∧
         ds !! i = Some d ∧
         build_dataset name "train" (Args.set_overrides gt rn fp cp a) = Ok d) →
    ∃ w' evs,
      for_acc (seq s n) (cycle_body (PList gts) (PList rns) (PList fps) (PList cps)) acc w =
        (Ok (acc ++ take n (drop s ds)), w') ∧
      same_fixed a w' ∧ rank w' = rank w ∧
      trace w' = trace w ++ evs ∧ length evs = n ∧
      (∀ j name gt rn fp cp,
         (j < n)%nat →
         Args.combine_datasets a !! (s + j)%nat = Some name →
         gts !! (s + j)%nat = Some gt → rns !! (s + j)%nat = Some rn →
         fps !! (s + j)%nat = Some fp → cps !! (s + j)%nat = Some cp →
         evs !! j = Some (EvBuildDataset name "train" (Args.set_overrides gt rn fp cp a))).
Proof.
  induction n as [|n IH]; intros s acc w Hsame Hall.
  - exists w, []. cbn. rewrite take_0, !app_nil_r.
    repeat split; auto. intros; lia.
  - destruct (Hall s ltac:(lia))
      as (name & gt & rn & fp & cp & d & Hname & Hgt & Hrn & Hfp & Hcp & Hd & Hbuild).
    cbn [seq for_acc]. unfold bind at 1.
    rewrite (cycle_body_ok a gts rns fps cps s acc w name gt rn fp cp d) by assumption.
    set (w1 := mkWorld _ _ _).
    destruct (IH (S s) (acc ++ [d]) w1) as (w' & evs & Hrun & Hsame' & Hrank & Htrace & Hlen & Hevs).
    { exists gt, rn, fp, cp. reflexivity. }
    { intros i Hi. apply Hall. lia. }
    exists w', (EvBuildDataset name "train" (Args.set_overrides gt rn fp cp a) :: evs).
    split.
    { rewrite Hrun. rewrite (drop_S _ _ _ Hd). cbn [take].
      rewrite <- app_assoc. reflexivity. }
    split; [exact Hsame'|].
    split; [rewrite Hrank; reflexivity|].
    split; [rewrite Htrace; subst w1; cbn; rewrite <- app_assoc; reflexivity|].
    split; [cbn; rewrite Hlen; reflexivity|].
    intros j name' gt' rn' fp' cp' Hj Hname' Hgt' Hrn' Hfp' Hcp'.
    destruct j as [|j].
    + rewrite Nat.add_0_r in *.
      rewrite Hname in Hname'. rewrite Hgt in Hgt'. rewrite Hrn in Hrn'.
      rewrite Hfp in Hfp'. rewrite Hcp in Hcp'.
      injection Hname' as <-. injection Hgt' as <-. injection Hrn' as <-.
      injection Hfp' as <-. injection Hcp' as <-. reflexivity.
    + cbn. replace (s + S j)%nat with (S s + j)%nat in * by lia.
      apply Hevs; auto. lia.
Qed.

(** The reset of lines 359-360 overwrites the four override fields. *)
Lemma reset_overrides_ok (a : Args.t) (w : World) :
  same_fixed a w →
  reset_overrides w =
    (Ok tt,
     mkWorld
       (Args.set_overrides (PStr "merged_karpathy") (PStr "refcocog")
          (PStr "data/Flickr30k/flickr30k_images_split/train") (PStr "data/coco") a)
       (rank w) (trace w)).
Proof.
  intros (g & r & f & c & Hw). unfold reset_overrides. munfold.
  rewrite Hw. reflexivity.
Qed.

(** C1 (amended). In multi-task cycling mode with at least one training
    dataset (the four override fields are lists as long as the non-empty
    list of training datasets) and outside evaluation-only mode, when every
    build and the concatenation succeed: the training-data phase builds one
    dataset per name, in order, and issues no other call; the build of index
    [i] reads a configuration whose [GT_type], [refexp_dataset_name],
    [flickr_img_path] and [coco_path] are element [i] of their lists;
    afterwards the four fields of the shared configuration hold the
    canonical values, "merged_karpathy" and "refcocog" among them. *)
Theorem C1_multitask_cycling (w : World) (gts rns fps cps : list PyVal)
    (ds : list Dataset) (dt : Dataset) :
  let a := args w in
  let names := Args.combine_datasets a in
  Args.eval a = false →
  names ≠ [] →
  Args.GT_type a = PList gts →
  Args.refexp_dataset_name a = PList rns →
  Args.flickr_img_path a = PList fps →
  Args.coco_path a = PList cps →
  length gts = length names →
  length rns = length names →
  length fps = length names →
  length cps = length names →
  length ds = length names →
  (∀ i name gt rn fp cp,
     names !! i = Some name →
     gts !! i = Some gt → rns !! i = Some rn → fps !! i = Some fp → cps !! i = Some cp →
     ∃ d, ds !! i = Some d ∧
          build_dataset name "train" (Args.set_overrides gt rn fp cp a) = Ok d) →
  ConcatDataset ds = Ok dt →
  ∃ (evs : list Event) (w' : World),
    train_data_phase w = (Ok (Some dt), w') ∧
    build_train_dataset w = (Ok dt, w') ∧
    trace w' = trace w ++ evs ∧
    length evs = length names ∧
    (∀ i name gt rn fp cp,
       names !! i = Some name →
       gts !! i = Some gt → rns !! i = Some rn → fps !! i = Some fp → cps !! i = Some cp →
       ∃ ai, evs !! i = Some (EvBuildDataset name "train" ai) ∧
             Args.GT_type ai = gt ∧
             Args.refexp_dataset_name ai = rn ∧
             Args.flickr_img_path ai = fp ∧
             Args.coco_path ai = cp ∧
             ai = Args.set_overrides gt rn fp cp a) ∧
    Args.GT_type (args w') = PStr "merged_karpathy" ∧
    Args.refexp_dataset_name (args w') = PStr "refcocog" ∧
    Args.flickr_img_path (args w') = PStr "data/Flickr30k/flickr30k_images_split/train" ∧
    Args.coco_path (args w') = PStr "data/coco" ∧
    args w' =
      Args.set_overrides (PStr "merged_karpathy") (PStr "refcocog")
        (PStr "data/Flickr30k/flickr30k_images_split/train") (PStr "data/coco") a.
Proof.
  intros a names Heval Hne Hgt Hrn Hfp Hcp Lgt Lrn Lfp Lcp Lds Hbuilds Hconcat.
  destruct (cycle_loop_ok a gts rns fps cps ds (length names) 0 [] w)
    as (w1 & evs & Hrun & Hsame & Hrank & Htrace & Hlen & Hevs).
  { apply same_fixed_refl. }
  { intros i [_ Hi]. cbn in Hi.
    destruct (lookup_lt_is_Some_2 names i Hi) as [name Hname].
    destruct (lookup_lt_is_Some_2 gts i ltac:(lia)) as [gt Hgt'].
    destruct (lookup_lt_is_Some_2 rns i ltac:(lia)) as [rn Hrn'].
    destruct (lookup_lt_is_Some_2 fps i ltac:(lia)) as [fp Hfp'].
    destruct (lookup_lt_is_Some_2 cps i ltac:(lia)) as [cp Hcp'].
    destruct (Hbuilds i name gt rn fp cp) as (d & Hd & Hb); auto.
    exists name, gt, rn, fp, cp, d. auto 10. }
  rewrite drop_0, take_ge in Hrun by lia. cbn in Hrun.
  assert (Hbt : build_train_dataset w =
                (Ok dt,
                 mkWorld
                   (Args.set_overrides (PStr "merged_karpathy") (PStr "refcocog")
                      (PStr "data/Flickr30k/flickr30k_images_split/train")
                      (PStr "data/coco") a)
                   (rank w1) (trace w1))).
  { unfold build_train_dataset. unfold bind at 1, get_args at 1.
    fold a. rewrite Hrn. cbn [is_list].
    rewrite Hgt, Hfp, Hcp. fold names.
    unfold bind at 1. rewrite Hrun.
    unfold bind at 1, lift at 1. rewrite Hconcat.
    unfold bind at 1. rewrite (reset_overrides_ok a w1 Hsame). reflexivity. }
  eexists evs, _. split; [|split; [exact Hbt|]].
  { unfold train_data_phase. unfold bind at 1, get_args at 1.
    fold a. fold names. rewrite Heval.
    destruct names; [congruence|]. cbn.
    unfold bind at 1. rewrite Hbt. reflexivity. }
  cbn [args trace].
  split; [exact Htrace|].
  split; [exact Hlen|].
  split.
  { intros i name gt rn fp cp Hname Hg Hr Hf Hc.
    exists (Args.set_overrides gt rn fp cp a).
    split; [|repeat split].
    apply (Hevs i name gt rn fp cp); auto.
    apply lookup_lt_Some in Hname. exact Hname. }
  repeat split.
Qed.

(** ** Startup: the checks on the dataset lists *)

Lemma startup_inv_init (w : World) : startup_inv (args w) (trace w) w.
Proof.
  split; [apply same_fixed_refl|].
  exists []. split; [by rewrite app_nil_r|]. intros e Hin. by apply not_elem_of_nil in Hin.
Qed.

Lemma preserves_ret {A} a t0 (x : A) : preserves a t0 (ret x).
Proof. intros w r w' H [= _ <-]. exact H. Qed.

Lemma preserves_raise {A} a t0 e : preserves a t0 (@raise _ A e).
Proof. intros w r w' H [= _ <-]. exact H. Qed.

Lemma preserves_lift {A} a t0 (x : result A) : preserves a t0 (lift x).
Proof. intros w r w' H [= _ <-]. exact H. Qed.

Lemma preserves_get_args a t0 : preserves a t0 get_args.
Proof. intros w r w' H [= _ <-]. exact H. Qed.

Lemma preserves_bind {A B} a t0 (m : M A) (k : A → M B) :
  preserves a t0 m → (∀ x, preserves a t0 (k x)) → preserves a t0 (bind m k).
Proof.
  intros Hm Hk w r w' H. unfold bind.
  destruct (m w) as [[x|e] w1] eqn:E.
  - intros Hrun. exact (Hk x w1 r w' (Hm _ _ _ H E) Hrun).
  - intros [= _ <-]. exact (Hm _ _ _ H E).
Qed.

Lemma preserves_emit a t0 ev :
  (∀ e, ev ≠ EvTrainOneEpoch e) → preserves a t0 (emit ev).
Proof.
  intros Hev w r w' [Hs (evs & Ht & Hnt)] [= _ <-]. split; [exact Hs|].
  exists (evs ++ [ev]). cbn. split; [by rewrite Ht, app_assoc|].
  intros e Hin. apply elem_of_app in Hin as [Hin|Hin].
  - exact (Hnt e Hin).
  - apply list_elem_of_singleton in Hin. exact (Hev e (eq_sym Hin)).
Qed.

Lemma preserves_modify a t0 (f : Args.t → Args.t) :
  (∀ gt rn fp cp, ∃ gt' rn' fp' cp',
     f (Args.set_overrides gt rn fp cp a) = Args.set_overrides gt' rn' fp' cp' a) →
  preserves a t0 (modify_args f).
Proof.
  intros Hf w r w' [(gt & rn & fp & cp & Hw) Ht] [= _ <-]. split; [|exact Ht].
  destruct (Hf gt rn fp cp) as (gt' & rn' & fp' & cp' & E).
  exists gt', rn', fp', cp'. cbn. rewrite Hw. exact E.
Qed.

Lemma preserves_for_acc {A B} a t0 (l : list A) (body : A → B → M B) :
  (∀ x acc, preserves a t0 (body x acc)) → ∀ acc, preserves a t0 (for_acc l body acc).
Proof.
  intros Hbody. induction l as [|x l IH]; intros acc; cbn.
  - apply preserves_ret.
  - apply preserves_bind; [apply Hbody|exact IH].
Qed.

Lemma preserves_set_GT_type a t0 v : preserves a t0 (modify_args (Args.set_GT_type v)).
Proof. apply preserves_modify. intros gt rn fp cp. by exists v, rn, fp, cp. Qed.

Lemma preserves_set_refexp_dataset_name a t0 v :
  preserves a t0 (modify_args (Args.set_refexp_dataset_name v)).
Proof. apply preserves_modify. intros gt rn fp cp. by exists gt, v, fp, cp. Qed.

Lemma preserves_set_flickr_img_path a t0 v :
  preserves a t0 (modify_args (Args.set_flickr_img_path v)).
Proof. apply preserves_modify. intros gt rn fp cp. by exists gt, rn, v, cp. Qed.

Lemma preserves_set_coco_path a t0 v : preserves a t0 (modify_args (Args.set_coco_path v)).
Proof. apply preserves_modify. intros gt rn fp cp. by exists gt, rn, fp, v. Qed.

Create HintDb preserves.
#[local] Hint Resolve preserves_ret preserves_raise preserves_lift preserves_get_args
  preserves_bind preserves_for_acc preserves_set_GT_type
  preserves_set_refexp_dataset_name preserves_set_flickr_img_path
  preserves_set_coco_path : preserves.
#[local] Hint Extern 1 (preserves _ _ (emit _)) =>
  apply preserves_emit; discriminate : preserves.

Lemma preserves_call_build_dataset a t0 name image_set :
  preserves a t0 (call_build_dataset name image_set).
Proof. unfold call_build_dataset. eauto with preserves. Qed.

Lemma preserves_reset_overrides a t0 : preserves a t0 reset_overrides.
Proof. unfold reset_overrides. eauto 10 with preserves. Qed.

Lemma preserves_cycle_body a t0 g r f c ii acc :
  preserves a t0 (cycle_body g r f c ii acc).
Proof.
  unfold cycle_body.
  repeat (apply preserves_bind; [|intros ?]);
    auto using preserves_call_build_dataset with preserves.
Qed.

Lemma preserves_build_train_dataset a t0 : preserves a t0 build_train_dataset.
Proof.
  unfold build_train_dataset.
  apply preserves_bind; [apply preserves_get_args|intros x].
  destruct (is_list _);
    eauto 10 using preserves_cycle_body, preserves_reset_overrides,
      preserves_call_build_dataset with preserves.
Qed.

Lemma preserves_train_data_phase a t0 : preserves a t0 train_data_phase.
Proof.
  unfold train_data_phase.
  apply preserves_bind; [apply preserves_get_args|intros x].
  destruct (_ && _); [apply preserves_raise|].
  destruct (negb _); eauto using preserves_build_train_dataset with preserves.
Qed.

(** The model and the optimizer are built first: two calls, the
    configuration untouched. *)
Lemma build_phases_trace (w w0 w1 : World) (mm : Model * option Model) (o : Optim) :
  build_model_phase w = (Ok mm, w0) →
  build_optimizer (fst mm) w0 = (Ok o, w1) →
  ∃ kind, w1 = mkWorld (args w) (rank w) (trace w ++ [EvBuildModel; EvMakeOptimizer kind]).
Proof.
  unfold build_model_phase, build_optimizer. munfold. cbn.
  destruct (build_model (args w)); [|discriminate].
  intros [= <- <-]. cbn.
  repeat match goal with
         | |- context [if ?b then _ else _] => destruct b
         end; try discriminate; intros [= <- <-]; cbn;
    rewrite <- app_assoc; eauto.
Qed.

(** C9 (amended). Once the model and the optimizer have been built: with an
    empty list of training datasets outside evaluation-only mode, [main]
    raises the RuntimeError of line 341 before any dataset is built; with an
    empty list of validation datasets, once the training data (if any) has
    been assembled, [main] raises the RuntimeError of line 382.  Either way
    the exception leaves [main] (exit status 1) and no training pass has
    been issued. *)
Theorem C9_empty_dataset_lists (w w0 w1 : World) (mm : Model * option Model) (o : Optim) :
  build_model_phase w = (Ok mm, w0) →
  build_optimizer (fst mm) w0 = (Ok o, w1) →
  (∃ kind, trace w1 = trace w ++ [EvBuildModel; EvMakeOptimizer kind]) ∧
  (Args.combine_datasets (args w) = [] → Args.eval (args w) = false →
     main w = (Raise (RuntimeError "Please provide at least one training dataset"), w1) ∧
     exit_status (fst (main w)) = 1) ∧
  (∀ dl w2,
     Args.combine_datasets_val (args w) = [] →
     train_data_phase w1 = (Ok dl, w2) →
     main w = (Raise (RuntimeError "Please provide at leas one validation dataset"), w2) ∧
     exit_status (fst (main w)) = 1 ∧
     ∃ evs, trace w2 = trace w ++ evs ∧ no_train evs).
Proof.
  intros Hbm Hbo.
  destruct (build_phases_trace _ _ _ _ _ Hbm Hbo) as [kind Hw1].
  split; [exists kind; rewrite Hw1; reflexivity|].
  split.
  - intros Hempty Heval.
    assert (Hmain : main w =
              (Raise (RuntimeError "Please provide at least one training dataset"), w1)).
    { unfold main. unfold bind at 1. rewrite Hbm.
      unfold bind at 1. rewrite Hbo.
      unfold bind at 1. unfold train_data_phase. munfold.
      rewrite Hw1. cbn. rewrite Hempty, Heval. reflexivity. }
    rewrite Hmain. split; reflexivity.
  - intros dl w2 Hempty Htrain.
    assert (Hinv : startup_inv (args w) (trace w) w2).
    { apply (preserves_train_data_phase (args w) (trace w) w1 (Ok dl) w2); [|exact Htrain].
      rewrite Hw1. apply (preserves_emit _ _ (EvMakeOptimizer kind) ltac:(discriminate)
                            (mkWorld (args w) (rank w) (trace w ++ [EvBuildModel])) (Ok tt));
        [|unfold emit; cbn; by rewrite <- app_assoc].
      apply (preserves_emit _ _ EvBuildModel ltac:(discriminate) w (Ok tt));
        [apply startup_inv_init|destruct w; reflexivity]. }
    destruct Hinv as [(gt & rn & fp & cp & E) Hevs].
    assert (Hmain : main w =
              (Raise (RuntimeError "Please provide at leas one validation dataset"), w2)).
    { unfold main. unfold bind at 1. rewrite Hbm.
      unfold bind at 1. rewrite Hbo.
      unfold bind at 1. rewrite Htrain.
      unfold bind at 1. unfold val_phase. munfold.
      rewrite E. cbn. rewrite Hempty. reflexivity. }
    rewrite Hmain. repeat split. exact Hevs.
Qed.

(** ** The evaluator dispatcher *)

(** C6. For the dataset name "flickr_test" with captioning requested, the
    dispatcher returns the captioning evaluator alone when detection is
    disabled, and the captioning, detection and flickr phrase-grounding
    evaluators, in that order, when detection is enabled. *)
Theorem C6_flickr_test_evaluators (a : Args.t) (b : BaseDs) :
  build_evaluator_list a b "flickr_test" true =
    let subset := if Args.test a then "test" else "val" in
    let merge_boxes := py_eq_str (Args.GT_type a) "merged" in
    let captioning :=
      FlickrCaptionEvaluator (Args.flickr_dataset_path a) subset merge_boxes (Args.output_dir a) in
    if Args.no_detection a then [captioning]
    else [captioning;
          CocoEvaluator b ["bbox"] false;
          FlickrEvaluator (Args.flickr_dataset_path a) subset merge_boxes].
Proof.
  unfold build_evaluator_list.
  destruct (Args.no_detection a); reflexivity.
Qed.

(** ** Resume *)

(** C2. Resuming from a checkpoint that holds "model", "optimizer" and
    "epoch": the live weights are the result of the strict load of "model"
    (and a failure of that load is the failure of the resume); outside
    evaluation-only mode the optimizer state is restored from "optimizer"
    and [args.start_epoch] becomes the checkpoint's epoch plus one, every
    other attribute staying as it was; in evaluation-only mode the optimizer
    and the configuration, starting epoch included, are left as they
    were. *)
Theorem C2_resume_restore (w : World) (n : Nets) (ck : checkpoint)
    (sd : StateDict) (osd : OptState) (e : Z) :
  ck_model ck = Some sd →
  ck_optimizer ck = Some osd →
  ck_epoch ck = Some e →
  (∀ err, load_state_dict true (Some sd) (model n) = Raise err →
     resume_restore ck n w = (Raise err, w)) ∧
  (∀ m o, load_state_dict true (Some sd) (model n) = Ok m →
     Args.eval (args w) = false →
     optimizer_load_state_dict osd (optimizer n) = Ok o →
     ∃ w', resume_restore ck n w = (Ok (mkNets m (model_ema n) o), w') ∧
           Args.start_epoch (args w') = e + 1 ∧
           args w' =
             Args.with_mutable (args w) (Args.GT_type (args w))
               (Args.refexp_dataset_name (args w)) (Args.flickr_img_path (args w))
               (Args.coco_path (args w)) (e + 1) ∧
           Args.eval (args w') = false ∧
           rank w' = rank w ∧ trace w' = trace w) ∧
  (∀ m, load_state_dict true (Some sd) (model n) = Ok m →
     Args.eval (args w) = true →
     ∃ w', resume_restore ck n w = (Ok (mkNets m (model_ema n) (optimizer n)), w') ∧
           Args.start_epoch (args w') = Args.start_epoch (args w) ∧
           w' = w).
Proof.
  intros Hm Ho He.
  unfold resume_restore, get_model_entry. munfold.
  rewrite Hm, Ho, He.
  repeat split.
  - intros err ->. reflexivity.
  - intros m o -> Heval ->. rewrite Heval. eexists. split; [reflexivity|].
    cbn. repeat split. exact Heval.
  - intros m -> ->. eexists. split; [reflexivity|]. split; reflexivity.
Qed.

(** The restore of lines 443-446 leaves the EMA switch alone. *)
Lemma resume_restore_ema (ck : checkpoint) (n n1 : Nets) (w w1 : World) :
  resume_restore ck n w = (Ok n1, w1) → Args.ema (args w1) = Args.ema (args w).
Proof.
  unfold resume_restore, get_model_entry. munfold.
  destruct (ck_model ck); [|discriminate].
  destruct (load_state_dict true _ _); [|discriminate].
  destruct (negb _), (ck_optimizer ck), (ck_epoch ck);
    try (intros [= <- <-]; reflexivity).
  destruct (optimizer_load_state_dict _ _); [|discriminate].
  intros [= <- <-]. reflexivity.
Qed.

(** After a successful restore the live weights are those the strict load
    of the checkpoint's "model" entry produced. *)
Lemma resume_restore_model (ck : checkpoint) (n n1 : Nets) (w w1 : World) :
  resume_restore ck n w = (Ok n1, w1) →
  ∃ sd, ck_model ck = Some sd ∧
        load_state_dict true (Some sd) (model n) = Ok (model n1).
Proof.
  unfold resume_restore, get_model_entry. munfold.
  destruct (ck_model ck) as [sd|]; [|discriminate].
  destruct (load_state_dict true _ _) as [m|] eqn:Hl; [|discriminate].
  intros H. exists sd. split; [reflexivity|].
  destruct (negb _), (ck_optimizer ck), (ck_epoch ck);
    try (injection H as <- <-; exact Hl).
  destruct (optimizer_load_state_dict _ _); [|discriminate].
  injection H as <- <-. exact Hl.
Qed.

(** C5. With EMA enabled, a resume whose load and restore steps succeed
    does not raise when the checkpoint has no "model_ema" entry: the shadow
    becomes a copy of the live weights just loaded.  When the checkpoint
    carries EMA weights, they are loaded (strictly) into the shadow. *)
Theorem C5_resume_ema (w w0 w1 : World) (n n1 : Nets) (ck : checkpoint) :
  Args.ema (args w) = true →
  truthy (Args.resume (args w)) = true →
  load_checkpoint (Args.resume (args w)) w = (Ok ck, w0) →
  resume_restore ck n w0 = (Ok n1, w1) →
  (∃ sd, ck_model ck = Some sd ∧
         load_state_dict true (Some sd) (model n) = Ok (model n1)) ∧
  (ck_model_ema ck = None →
     resume_phase n w = (Ok (mkNets (model n1) (Some (model n1)) (optimizer n1)), w1)) ∧
  (∀ sde shadow shadow',
     ck_model_ema ck = Some (Some sde) →
     model_ema n1 = Some shadow →
     load_state_dict true (Some sde) shadow = Ok shadow' →
     resume_phase n w = (Ok (mkNets (model n1) (Some shadow') (optimizer n1)), w1)).
Proof.
  intros Hema Hres Hload Hrestore.
  assert (Hema1 : Args.ema (args w1) = true).
  { rewrite (resume_restore_ema _ _ _ _ _ Hrestore).
    revert Hload. unfold load_checkpoint. munfold.
    destruct (String.prefix _ _); simpl;
      [destruct (urls !! _) | destruct (files !! _)];
      intros [= <- <-] || discriminate; exact Hema. }
  split; [exact (resume_restore_model _ _ _ _ _ Hrestore)|].
  split.
  - intros Habs. unfold resume_phase. munfold. simpl.
    rewrite Hres, Hload, Hrestore.
    unfold resume_ema. munfold. rewrite Hema1, Habs. reflexivity.
  - intros sde shadow shadow' Hpres Hsh Hl.
    unfold resume_phase. munfold. simpl.
    rewrite Hres, Hload, Hrestore.
    unfold resume_ema. munfold. rewrite Hema1, Hpres, Hsh, Hl. reflexivity.
Qed.

(** With EMA off, the rolling checkpoint [main] writes holds the key
    "model_ema" with the value None (line 568). *)
Lemma checkpoint_step_model_ema_none (w : World) (epoch : Z) (ls : Loop) :
  Args.ema (args w) = false →
  truthy (Args.output_dir (args w)) = true →
  Args.lr_drop (args w) ≠ 0 →
  ∃ rest,
    trace (snd (checkpoint_step epoch ls w)) =
      trace w ++
      EvSaveOnMaster RollingCheckpoint
        (mkCheckpoint (Some (state_dict (model (nets ls)))) (Some None)
           (Some (optimizer_state_dict (optimizer (nets ls)))) (Some epoch)) :: rest.
Proof.
  intros Hema Hout Hlr. apply Z.eqb_neq in Hlr.
  unfold checkpoint_step. munfold. rewrite Hout, Hlr, Hema. cbn.
  destruct (_ || _); cbn; rewrite <- ?app_assoc; eauto.
Qed.

(** On such an entry the resume with EMA on hands None to the strict load
    of the shadow: the outcome is the collaborator's. *)
Lemma resume_ema_none_entry (ck : checkpoint) (n : Nets) (w : World) (shadow : Model) :
  Args.ema (args w) = true →
  ck_model_ema ck = Some None →
  model_ema n = Some shadow →
  resume_ema ck n w =
    match load_state_dict true None shadow with
    | Ok shadow' => (Ok (mkNets (model n) (Some shadow') (optimizer n)), w)
    | Raise e => (Raise e, w)
    end.
Proof.
  intros Hema Hck Hsh. unfold resume_ema. munfold. rewrite Hema, Hck, Hsh.
  destruct (load_state_dict _ _ _); reflexivity.
Qed.

(** ** The frozen-weights path *)

(** C10. When [args.frozen_weights] is set, the one checkpoint the
    frozen-weights path reads is the one [args.resume] names, whatever the
    frozen-weights path is; with an empty [args.resume], which names no
    file, the path fails with the error of opening that file. *)
Theorem C10_frozen_reads_resume (w : World) (n : Nets) (fw : string) :
  Args.frozen_weights (args w) = Some fw →
  let src := Args.resume (args w) in
  trace (snd (frozen_phase n w)) =
    trace w ++ [if String.prefix "https" src then EvHubLoad src else EvTorchLoad src] ∧
  (src = "" → files !! "" = None →
     frozen_phase n w =
       (Raise (FileNotFoundError ""),
        mkWorld (args w) (rank w) (trace w ++ [EvTorchLoad ""]))).
Proof.
  intros Hfw src. subst src. split.
  - unfold frozen_phase, load_checkpoint, get_model_entry. munfold. rewrite Hfw.
    destruct (String.prefix _ _); simpl.
    + destruct (urls !! _) as [ck|]; [|reflexivity].
      destruct (ck_model_ema ck) as [[sd|]|]; simpl;
        repeat match goal with
               | |- context [ck_model ?c] => destruct (ck_model c); simpl
               | |- context [detr_load_state_dict ?a ?b] =>
                   destruct (detr_load_state_dict a b); simpl
               end; reflexivity.
    + destruct (files !! _) as [ck|]; [|reflexivity].
      destruct (ck_model_ema ck) as [[sd|]|]; simpl;
        repeat match goal with
               | |- context [ck_model ?c] => destruct (ck_model c); simpl
               | |- context [detr_load_state_dict ?a ?b] =>
                   destruct (detr_load_state_dict a b); simpl
               end; reflexivity.
  - intros Hsrc Hnone.
    unfold frozen_phase, load_checkpoint. munfold. rewrite Hfw, Hsrc.
    simpl. rewrite Hnone. reflexivity.
Qed.

(** ** The epoch loop *)

(** Whatever the configuration, an iteration of the loop body does not
    complete: past the training step, line 557 raises. *)
Lemma epoch_body_never_completes (S : Setup) (epoch : Z) (ls : Loop) (w : World) :
  ∃ e w', epoch_body S epoch ls w = (Raise e, w').
Proof.
  unfold epoch_body, log_train_loss. munfold.
  destruct (train_step S epoch ls w) as [[ls'|e] w']; eauto.
Qed.

(** With an epoch to go, the loop raises in its first iteration, distributed or
    not. *)
Lemma training_loop_raises (S : Setup) (n : Nets) (w : World) :
  Args.start_epoch (args w) < Args.epochs (args w) →
  ∃ e w', training_loop S n w = (Raise e, w').
Proof.
  intros Hlt. unfold training_loop. unfold bind at 1, get_args at 1.
  rewrite seqZ_cons by lia. cbn [for_acc]. unfold bind at 1.
  destruct (epoch_body_never_completes S (Args.start_epoch (args w))
              (mkLoop n None 0%float) w) as (e & w' & ->).
  eauto.
Qed.

(** C3. In a run that is not distributed, with at least one epoch to go,
    the loop issues no training pass and builds no log record: its first
    iteration raises on the unbound name [loss] of line 557, the world
    being as it was on entry. *)
Theorem C3_training_loop_single_process (S : Setup) (n : Nets) (w : World) :
  Args.distributed (args w) = false →
  Args.start_epoch (args w) < Args.epochs (args w) →
  training_loop S n w = (Raise (NameError "loss"), w).
Proof.
  intros Hd Hlt.
  unfold training_loop. munfold.
  rewrite seqZ_cons by lia. simpl.
  unfold epoch_body, train_step, log_train_loss. munfold.
  rewrite Hd. reflexivity.
Qed.

(** Lines 598-607 taken on their own: the guard on the leader is commented
    out (line 605), and a process of any rank entering them with
    [train_stats] bound appends the epoch's record.  No run enters them: line
    557 raises first. *)
Lemma log_step_any_rank (S : Setup) (epoch : Z) (ls : Loop)
    (test_stats ts : Stats) (w : World) :
  train_stats ls = Some ts →
  log_step S epoch ls test_stats w =
    (Ok tt,
     mkWorld (args w) (rank w)
       (trace w ++ [EvLogAppend (make_log_stats ts test_stats epoch (n_parameters S))])).
Proof.
  intros Hts. unfold log_step. rewrite Hts. reflexivity.
Qed.

(** The training step rebinds the networks and [train_stats] only. *)
Lemma train_step_best_metric (S : Setup) (epoch : Z) (ls ls' : Loop) (w w' : World) :
  train_step S epoch ls w = (Ok ls', w') → best_metric ls' = best_metric ls.
Proof.
  unfold train_step. munfold.
  destruct (Args.distributed _); [|intros [= <- <-]; reflexivity].
  destruct (sampler_train S); [|discriminate].
  destruct (deepspeed_engine S); [|discriminate].
  destruct (train_one_epoch _ _ _ _ _ _ _ _) as [[stats [[m me] o]]|]; [|discriminate].
  intros [= <- <-]. reflexivity.
Qed.

(** Off the evaluation cadence, lines 609-630 do nothing. *)
Lemma best_select_off_epoch (w : World) (epoch : Z) (ls : Loop) (test_stats : Stats) :
  Args.eval_skip (args w) ≠ 0 →
  epoch mod Args.eval_skip (args w) ≠ 0 →
  best_select epoch ls test_stats w = (Ok ls, w).
Proof.
  intros Hs He. unfold best_select, is_eval_epoch. munfold.
  apply Z.eqb_neq in Hs, He. rewrite Hs, He. reflexivity.
Qed.

(** Lines 609-630 taken on their own, on an evaluation epoch outside
    captioning mode, with the metric computed from the "coco_eval_bbox"
    statistics: the best metric is replaced by the new metric, and the best
    checkpoint is written, exactly when an output directory is configured
    and the new metric is strictly greater than the recorded best; otherwise
    nothing changes.  Either way the recorded best does not decrease.  No run
    enters these lines: line 557 raises first. *)
Lemma best_select_step (w : World) (epoch : Z) (ls : Loop)
    (test_stats : Stats) (xs : list float) :
  Args.do_caption (args w) = false →
  Args.eval_skip (args w) ≠ 0 →
  epoch mod Args.eval_skip (args w) = 0 →
  bbox_scores test_stats = Ok xs →
  let metric := np_mean xs in
  let improved :=
    truthy (Args.output_dir (args w)) && float_gt metric (best_metric ls) in
  let best' := if improved then metric else best_metric ls in
  best_select epoch ls test_stats w =
    (Ok (mkLoop (nets ls) (train_stats ls) best'),
     mkWorld (args w) (rank w)
       (trace w ++ if improved then [EvSaveCheckpoint [BestCheckpoint] epoch] else []))
  ∧ (best' = best_metric ls ∨ float_gt best' (best_metric ls) = true).
Proof.
  intros Hcap Hs He Hxs metric improved best'.
  apply Z.eqb_neq in Hs. apply Z.eqb_eq in He.
  split.
  - unfold best_select, is_eval_epoch, selection_metric. munfold.
    rewrite Hs, He, Hcap, Hxs. simpl.
    fold metric. fold improved. subst best'.
    destruct improved; simpl.
    + reflexivity.
    + rewrite app_nil_r. destruct ls, w. reflexivity.
  - subst best'. destruct improved eqn:Himp; [|left; reflexivity].
    right. subst improved. apply andb_prop in Himp. apply Himp.
Qed.

(** Whenever lines 609-630 return, the recorded best has not decreased. *)
Lemma best_select_monotone (w w' : World) (epoch : Z) (ls ls' : Loop) (test_stats : Stats) :
  best_select epoch ls test_stats w = (Ok ls', w') →
  best_metric ls' = best_metric ls ∨ float_gt (best_metric ls') (best_metric ls) = true.
Proof.
  unfold best_select, is_eval_epoch, selection_metric. munfold.
  destruct (Args.eval_skip _ =? 0); [discriminate|].
  destruct (_ mod _ =? 0); [|intros [= <- <-]; by left].
  destruct (Args.do_caption _); [discriminate|].
  destruct (bbox_scores _); [|discriminate].
  destruct (_ && _) eqn:E; cbn; intros [= <- <-]; [right|by left].
  cbn. by apply andb_prop in E as [_ ?].
Qed.

(** No key selected: the list of scores is empty. *)
Lemma bbox_scores_no_key (test_stats : Stats) :
  (∀ k v, (k, v) ∈ test_stats → contains "coco_eval_bbox" k = false) →
  bbox_scores test_stats = Ok [].
Proof.
  induction test_stats as [|[k v] rest IH]; intros H; [reflexivity|].
  cbn [bbox_scores].
  rewrite (H k v) by apply list_elem_of_here.
  apply IH. intros k' v' Hin. apply (H k' v'). by apply list_elem_of_further.
Qed.

(** A NaN is greater than nothing. *)
Lemma float_gt_nan (b : float) : float_gt nan b = false.
Proof.
  unfold float_gt. rewrite ltb_spec.
  change (Prim2SF nan) with S754_nan.
  unfold SFltb. destruct (Prim2SF b); reflexivity.
Qed.

(** Lines 609-616 taken on their own, on an evaluation epoch outside
    captioning mode where no key of the test statistics contains
    "coco_eval_bbox", numpy's mean of the empty list being NaN: the selection
    metric is NaN, the step leaves the best metric alone, writes no
    checkpoint and returns normally. *)
Lemma best_select_nan (w : World) (epoch : Z) (ls : Loop)
    (test_stats : Stats) :
  np_mean [] = nan →
  Args.do_caption (args w) = false →
  Args.eval_skip (args w) ≠ 0 →
  epoch mod Args.eval_skip (args w) = 0 →
  (∀ k v, (k, v) ∈ test_stats → contains "coco_eval_bbox" k = false) →
  selection_metric test_stats w = (Ok nan, w) ∧
  best_select epoch ls test_stats w = (Ok ls, w).
Proof.
  intros Hnan Hcap Hs He Hkeys.
  apply Z.eqb_neq in Hs. apply Z.eqb_eq in He.
  pose proof (bbox_scores_no_key _ Hkeys) as Hxs.
  split.
  - unfold selection_metric. munfold. rewrite Hcap, Hxs, Hnan. reflexivity.
  - unfold best_select, is_eval_epoch, selection_metric. munfold.
    rewrite Hs, He, Hcap, Hxs, Hnan. simpl.
    rewrite float_gt_nan, andb_false_r. reflexivity.
Qed.

(** ** Whole runs of [main]

    What a run maintains from its first statement to its last, whether it
    returns or raises. *)

Lemma keeps_ret {A} P (x : A) : keeps P (ret x).
Proof. intros w r w' H [= _ <-]. exact H. Qed.

Lemma keeps_raise {A} P e : keeps P (@raise _ A e).
Proof. intros w r w' H [= _ <-]. exact H. Qed.

Lemma keeps_lift {A} P (x : result A) : keeps P (lift x).
Proof. intros w r w' H [= _ <-]. exact H. Qed.

Lemma keeps_get_args P : keeps P get_args.
Proof. intros w r w' H [= _ <-]. exact H. Qed.

Lemma keeps_bind {A B} P (m : M A) (k : A → M B) :
  keeps P m → (∀ x, keeps P (k x)) → keeps P (bind m k).
Proof.
  intros Hm Hk w r w' H. unfold bind.
  destruct (m w) as [[x|e] w1] eqn:E.
  - intros Hrun. exact (Hk x w1 r w' (Hm _ _ _ H E) Hrun).
  - intros [= _ <-]. exact (Hm _ _ _ H E).
Qed.

(** What follows a statement that raises is not run. *)
Lemma keeps_bind_raise {A B} P e (k : A → M B) : keeps P (bind (raise e) k).
Proof. intros w r w' H [= _ <-]. exact H. Qed.

Lemma keeps_bind_args {B} P (k : Args.t → M B) :
  (∀ w, P w → keeps P (k (args w))) → keeps P (bind get_args k).
Proof. intros Hk w r w' H. unfold bind, get_args. exact (Hk w H w r w' H). Qed.

Lemma keeps_for_acc {A B} P (l : list A) (body : A → B → M B) :
  (∀ x acc, keeps P (body x acc)) → ∀ acc, keeps P (for_acc l body acc).
Proof.
  intros Hbody. induction l as [|x l IH]; intros acc; cbn.
  - apply keeps_ret.
  - apply keeps_bind; [apply Hbody|exact IH].
Qed.

Lemma stays_init (Q : Args.t → Prop) ok (w : World) :
  Q (args w) → stays Q ok (trace w) w.
Proof. intros HQ. split; [exact HQ|]. exists []. by rewrite app_nil_r. Qed.

Lemma keeps_emit_stays Q ok t0 ev :
  ok ev = true → keeps (stays Q ok t0) (emit ev).
Proof.
  intros Hok w r w' (HQ & evs & Ht & Hall) [= _ <-]. cbn.
  split; [exact HQ|].
  exists (evs ++ [ev]). split; [by rewrite Ht, app_assoc|].
  apply Forall_app. split; [exact Hall|by apply Forall_singleton].
Qed.

Lemma keeps_modify_stays (Q : Args.t → Prop) ok t0 (f : Args.t → Args.t) :
  (∀ a, Q a → Q (f a)) → keeps (stays Q ok t0) (modify_args f).
Proof.
  intros Hf w r w' (HQ & Hevs) [= _ <-]. split; [exact (Hf _ HQ)|exact Hevs].
Qed.

(** Walks through a computation that maintains [stays Q ok t0]; an event is
    checked against [ok], an assignment to [args] against [Q]. *)
Ltac keep_stays tac :=
  repeat first
    [ apply keeps_ret | apply keeps_raise | apply keeps_lift | apply keeps_get_args
    | apply keeps_bind_raise
    | apply keeps_emit_stays; reflexivity
    | apply keeps_modify_stays; tac
    | apply keeps_bind; [|intros ?]
    | apply keeps_for_acc; intros ? ?
    | match goal with
      | |- keeps _ (if ?b then _ else _) => destruct b
      | |- keeps _ (match ?x with _ => _ end) => destruct x
      end ].

(** ** No run writes below [output_dir] *)

Ltac keep_quiet := keep_stays ltac:(intros ? ?; exact I).

Lemma keeps_quiet_startup t0 :
  let P := stays anything (λ ev, negb (persists ev)) t0 in
  keeps P build_model_phase ∧ (∀ m, keeps P (build_optimizer m)) ∧
  keeps P train_data_phase ∧ keeps P val_phase ∧
  (∀ n, keeps P (frozen_phase n)) ∧ (∀ n, keeps P (load_phase n)) ∧
  (∀ n, keeps P (resume_phase n)).
Proof.
  cbv zeta. repeat apply conj; intros;
    unfold build_model_phase, build_optimizer, train_data_phase, build_train_dataset,
      cycle_body, val_phase, reset_overrides, call_build_dataset, frozen_phase, load_phase,
      resume_phase, resume_restore, resume_ema, get_model_entry, load_checkpoint;
    keep_quiet.
Qed.

Lemma keeps_quiet_training_loop t0 S n :
  keeps (stays anything (λ ev, negb (persists ev)) t0) (training_loop S n).
Proof.
  unfold training_loop. apply keeps_bind; [apply keeps_get_args|intros a].
  apply keeps_for_acc. intros epoch ls.
  unfold epoch_body, train_step, log_train_loss. keep_quiet.
Qed.

Lemma main_keeps_quiet t0 : keeps (stays anything (λ ev, negb (persists ev)) t0) main.
Proof.
  destruct (keeps_quiet_startup t0) as (Hbm & Hbo & Htd & Hval & Hfr & Hld & Hrs).
  unfold main.
  apply keeps_bind; [exact Hbm|intros mm].
  apply keeps_bind; [apply Hbo|intros o].
  apply keeps_bind; [exact Htd|intros dt].
  apply keeps_bind; [apply keeps_get_args|intros a].
  apply keeps_bind; [exact Hval|intros vt].
  apply keeps_bind; [apply Hfr|intros n1].
  apply keeps_bind; [apply Hld|intros n2].
  apply keeps_bind; [apply Hrs|intros n3].
  apply keeps_bind; [apply keeps_get_args|intros a'].
  destruct (Args.eval a').
  - apply keeps_bind; [unfold run_evaluation; keep_quiet|intros ?; apply keeps_ret].
  - apply keeps_bind; [unfold init_engines; keep_quiet|intros ne].
    apply keeps_bind; [apply keeps_quiet_training_loop|intros ?; apply keeps_ret].
Qed.

(** ** A training run evaluates nothing *)

Ltac keep_training := keep_stays ltac:(intros ? Htr; exact Htr).

Lemma keeps_training_startup t0 :
  let P := stays training (λ ev, negb (is_evaluate ev)) t0 in
  keeps P build_model_phase ∧ (∀ m, keeps P (build_optimizer m)) ∧
  keeps P train_data_phase ∧ keeps P val_phase ∧
  (∀ n, keeps P (frozen_phase n)) ∧ (∀ n, keeps P (load_phase n)) ∧
  (∀ n, keeps P (resume_phase n)).
Proof.
  cbv zeta. repeat apply conj; intros;
    unfold build_model_phase, build_optimizer, train_data_phase, build_train_dataset,
      cycle_body, val_phase, reset_overrides, call_build_dataset, frozen_phase, load_phase,
      resume_phase, resume_restore, resume_ema, get_model_entry, load_checkpoint;
    keep_training.
Qed.

Lemma keeps_training_loop t0 S n :
  keeps (stays training (λ ev, negb (is_evaluate ev)) t0) (training_loop S n).
Proof.
  unfold training_loop. apply keeps_bind; [apply keeps_get_args|intros a].
  apply keeps_for_acc. intros epoch ls.
  unfold epoch_body, train_step, log_train_loss. keep_training.
Qed.

Lemma main_keeps_training t0 :
  keeps (stays training (λ ev, negb (is_evaluate ev)) t0) main.
Proof.
  destruct (keeps_training_startup t0) as (Hbm & Hbo & Htd & Hval & Hfr & Hld & Hrs).
  unfold main.
  apply keeps_bind; [exact Hbm|intros mm].
  apply keeps_bind; [apply Hbo|intros o].
  apply keeps_bind; [exact Htd|intros dt].
  apply keeps_bind; [apply keeps_get_args|intros a].
  apply keeps_bind; [exact Hval|intros vt].
  apply keeps_bind; [apply Hfr|intros n1].
  apply keeps_bind; [apply Hld|intros n2].
  apply keeps_bind; [apply Hrs|intros n3].
  apply keeps_bind_args. intros w1 (Htr & _). unfold training in Htr. rewrite Htr.
  apply keeps_bind; [unfold init_engines; keep_training|intros ne].
  apply keeps_bind; [apply keeps_training_loop|intros ?; apply keeps_ret].
Qed.

(** ** When [main] returns *)

Lemma bind_ok_inv {A B} (m : M A) (k : A → M B) (w w' : World) (b : B) :
  bind m k w = (Ok b, w') → ∃ a w1, m w = (Ok a, w1) ∧ k a w1 = (Ok b, w').
Proof.
  unfold bind. destruct (m w) as [[a|e] w1]; [eauto|discriminate].
Qed.

(** The loop returns only when it has no epoch to run, and then with the
    state it was entered with: the recorded best is the initial one. *)
Lemma training_loop_returns (S : Setup) (n : Nets) (w w' : World) (ls : Loop) :
  training_loop S n w = (Ok ls, w') →
  Args.epochs (args w) ≤ Args.start_epoch (args w) ∧ w' = w ∧
  ls = mkLoop n None 0%float.
Proof.
  intros Hrun.
  destruct (Z_lt_le_dec (Args.start_epoch (args w)) (Args.epochs (args w))) as [Hlt|Hle].
  - destruct (training_loop_raises S n w Hlt) as (e & w'' & Hr). congruence.
  - split; [exact Hle|]. revert Hrun. unfold training_loop. munfold.
    rewrite seqZ_nil by lia. cbn. intros [= <- <-]. by split.
Qed.

Lemma main_returns (w w' : World) :
  main w = (Ok tt, w') →
  Args.eval (args w') = true ∨ Args.epochs (args w') ≤ Args.start_epoch (args w').
Proof.
  unfold main. intros H.
  apply bind_ok_inv in H as (mm & w1 & _ & H).
  apply bind_ok_inv in H as (o & w2 & _ & H).
  apply bind_ok_inv in H as (dt & w3 & _ & H).
  apply bind_ok_inv in H as (a3 & w3' & _ & H).
  apply bind_ok_inv in H as (vt & w4 & _ & H).
  apply bind_ok_inv in H as (n1 & w5 & _ & H).
  apply bind_ok_inv in H as (n2 & w6 & _ & H).
  apply bind_ok_inv in H as (n3 & w7 & _ & H).
  apply bind_ok_inv in H as (a & w8 & Ha & H).
  injection Ha as <- <-.
  destruct (Args.eval (args w7)) eqn:Heval.
  - apply bind_ok_inv in H as (stats & w9 & Hrun & H). injection H as <-.
    left.
    assert (Hk : keeps (λ w, Args.eval (args w) = true) (run_evaluation n3 vt)).
    { unfold run_evaluation. apply keeps_for_acc. intros item acc.
      apply keeps_bind; [apply keeps_get_args|intros a].
      apply keeps_bind; [|intros ?; apply keeps_bind; [apply keeps_lift|intros ?; apply keeps_ret]].
      intros u r u' Hu [= _ <-]. exact Hu. }
    exact (Hk _ _ _ Heval Hrun).
  - apply bind_ok_inv in H as (ne & w9 & Hinit & H).
    assert (w9 = w7) as ->.
    { revert Hinit. unfold init_engines. munfold.
      destruct (Args.from_deepspeed _); [destruct (deepspeed_initialize _ _ _) as [[? ?] ?]|];
        by intros [= _ <-]. }
    apply bind_ok_inv in H as (ls & w10 & Hloop & H). injection H as <-.
    right. apply training_loop_returns in Hloop as (Hle & -> & _). exact Hle.
Qed.



(** C8. A run of [main] that is not evaluation-only and has an epoch to go
    ends in an exception, whatever the evaluation statistics would hold: the
    first iteration of the loop raises before any evaluation is issued, and
    before the selection of lines 609-616. *)
Theorem C8_training_run_raises (w w' : World) (r : result unit) :
  Args.eval (args w) = false →
  main w = (r, w') →
  Args.start_epoch (args w') < Args.epochs (args w') →
  (∃ e, r = Raise e) ∧
  ∃ evs, trace w' = trace w ++ evs ∧
    (∀ name evaluators, EvEvaluate name evaluators ∉ evs) ∧
    (∀ files epoch, EvSaveCheckpoint files epoch ∉ evs).
Proof.
  intros Heval Hrun Hlt.
  destruct (main_keeps_training (trace w) w r w' (stays_init training _ w Heval) Hrun)
    as (Heval' & evs & Ht & Hall).
  split.
  - destruct r as [[]|e]; [|by exists e].
    destruct (main_returns w w' Hrun) as [He|Hle]; [unfold training in Heval'; congruence|lia].
  - exists evs. split; [exact Ht|]. split.
    + intros name evaluators Hin. rewrite Forall_forall in Hall. by specialize (Hall _ Hin).
    + intros files epoch Hin.
      destruct (main_keeps_quiet (trace w) w r w' (stays_init anything _ w I) Hrun)
        as (_ & evs' & Ht' & Hall').
      rewrite Ht in Ht'. apply app_inv_head in Ht' as <-.
      rewrite Forall_forall in Hall'. by specialize (Hall' _ Hin).
Qed.

(** ** Further properties of the phases

    What the startup phases, the evaluation pass and the first training step
    do on their edge cases. *)

(** X1. Once the model is built, an optimizer name other than "sgd", "adam"
    and "adamw" (compared as written, so "AdamW" or "SGD" too) makes [main]
    raise [RuntimeError "Unsupported optimizer <name>"]: the model has been
    built by then, and nothing else has been done. *)
Theorem main_unsupported_optimizer (w w0 : World) (mm : Model * option Model) :
  build_model_phase w = (Ok mm, w0) →
  Args.use_colo_zero (args w) = false →
  Args.optimizer (args w) ≠ "sgd" →
  Args.optimizer (args w) ≠ "adam" →
  Args.optimizer (args w) ≠ "adamw" →
  main w =
    (Raise (RuntimeError ("Unsupported optimizer " +:+ Args.optimizer (args w))),
     mkWorld (args w) (rank w) (trace w ++ [EvBuildModel])).
Proof.
  intros Hbm Hz H1 H2 H3.
  apply String.eqb_neq in H1, H2, H3.
  unfold main. unfold bind at 1. rewrite Hbm.
  revert Hbm. unfold build_model_phase. munfold. cbn.
  destruct (build_model (args w)); [|discriminate].
  intros [= <- <-]. unfold build_optimizer. munfold. cbn.
  rewrite Hz, H1, H2, H3. reflexivity.
Qed.

Lemma builds_under_init (w : World) image_set :
  builds_under (args w) (rank w) (trace w) image_set w.
Proof. repeat split. exists []. by rewrite app_nil_r. Qed.

Lemma keeps_call_build_dataset a rk t0 image_set name :
  keeps (builds_under a rk t0 image_set) (call_build_dataset name image_set).
Proof.
  unfold call_build_dataset. apply keeps_bind_args. intros w (Ha & Hr & evs & Ht & Hall).
  apply keeps_bind; [|intros _; apply keeps_lift].
  intros w1 r w' (Ha1 & Hr1 & evs1 & Ht1 & Hall1) [= _ <-]. cbn.
  repeat split; [exact Ha1|exact Hr1|].
  exists (evs1 ++ [EvBuildDataset name image_set (args w)]).
  split; [by rewrite Ht1, app_assoc|].
  apply Forall_app. split; [exact Hall1|]. apply Forall_singleton.
  exists name. by rewrite Ha.
Qed.

Lemma keeps_plain_loop a rk t0 image_set (names : list string) {B}
    (wrap : string → Dataset → B) (acc : list B) :
  keeps (builds_under a rk t0 image_set)
    (for_acc names
       (fun name acc => bind (call_build_dataset name image_set)
                          (fun d => ret (acc ++ [wrap name d]))) acc).
Proof.
  apply keeps_for_acc. intros name acc'.
  apply keeps_bind; [apply keeps_call_build_dataset|intros d; apply keeps_ret].
Qed.

Lemma keeps_scalar_train_data (a : Args.t) (rk : Z) (t0 : list Event) :
  is_list (Args.refexp_dataset_name a) = false →
  keeps (builds_under a rk t0 "train") train_data_phase.
Proof.
  intros Hscalar.
  unfold train_data_phase. apply keeps_bind_args. intros w1 (Ha & _).
  destruct (_ && _); [apply keeps_raise|].
  destruct (negb _); [|apply keeps_ret].
  apply keeps_bind; [|intros ?; apply keeps_ret].
  unfold build_train_dataset. apply keeps_bind_args. intros w2 (Ha2 & _).
  rewrite Ha2, Hscalar.
  apply keeps_bind; [|intros ?; apply keeps_lift].
  apply (keeps_plain_loop _ _ _ _ _ (fun _ d => d)).
Qed.

(** X2. With a scalar [refexp_dataset_name] (the single-task mode) the
    training-data phase never writes to the shared configuration, whether it
    returns or raises, and it issues nothing but training-split dataset
    builds, each one reading the configuration as it was on entry. *)
Theorem scalar_overrides_untouched (w w' : World) (r : result (option Dataset)) :
  is_list (Args.refexp_dataset_name (args w)) = false →
  train_data_phase w = (r, w') →
  args w' = args w ∧
  ∃ evs, trace w' = trace w ++ evs ∧
         Forall (λ ev, ∃ name, ev = EvBuildDataset name "train" (args w)) evs.
Proof.
  intros Hscalar Hrun.
  destruct (keeps_scalar_train_data (args w) (rank w) (trace w) Hscalar w r w'
              (builds_under_init w "train") Hrun) as (Ha & _ & Hevs).
  split; assumption.
Qed.

Lemma for_acc_app {A B} (l1 l2 : list A) (body : A → B → M B) (acc : B) (w : World) :
  for_acc (l1 ++ l2) body acc w =
    match for_acc l1 body acc w with
    | (Ok acc', w1) => for_acc l2 body acc' w1
    | (Raise e, w1) => (Raise e, w1)
    end.
Proof.
  revert acc w. induction l1 as [|x l1 IH]; intros acc w; cbn; [reflexivity|].
  unfold bind. destruct (body x acc w) as [[acc'|e] w1]; [apply IH|reflexivity].
Qed.

Lemma cycle_body_build_raises (a : Args.t) (gts rns fps cps : list PyVal) (ii : nat)
    (acc : list Dataset) (w : World) (name : string) (gt rn fp cp : PyVal) (e : exn) :
  same_fixed a w →
  Args.combine_datasets a !! ii = Some name →
  gts !! ii = Some gt → rns !! ii = Some rn → fps !! ii = Some fp → cps !! ii = Some cp →
  build_dataset name "train" (Args.set_overrides gt rn fp cp a) = Raise e →
  cycle_body (PList gts) (PList rns) (PList fps) (PList cps) ii acc w =
    (Raise e,
     mkWorld (Args.set_overrides gt rn fp cp a) (rank w)
       (trace w ++ [EvBuildDataset name "train" (Args.set_overrides gt rn fp cp a)])).
Proof.
  intros (g & r & f & c & Hw) Hname Hgt Hrn Hfp Hcp Hbuild.
  unfold cycle_body, call_build_dataset. munfold.
  rewrite Hw. cbn. rewrite Hname, Hgt, Hrn. cbn. rewrite Hfp. cbn. rewrite Hcp. cbn.
  change (Args.set_coco_path cp _) with (Args.set_overrides gt rn fp cp a).
  rewrite Hbuild. reflexivity.
Qed.

(** X3. In multi-task mode, when the build of training dataset [i] raises
    after the builds before it succeeded, the exception leaves the assembly
    with the four override fields of the shared configuration still holding
    element [i] of their lists: the reset of lines 359-360 is not reached.
    Exactly [i + 1] builds were issued, the last one the failing one. *)
Theorem cycling_build_failure_leaks (w : World) (gts rns fps cps : list PyVal)
    (ds : list Dataset) (i : nat) (name : string) (gt rn fp cp : PyVal) (e : exn) :
  let a := args w in
  Args.GT_type a = PList gts →
  Args.refexp_dataset_name a = PList rns →
  Args.flickr_img_path a = PList fps →
  Args.coco_path a = PList cps →
  (∀ j, (j < i)%nat →
     ∃ name gt rn fp cp d,
       Args.combine_datasets a !! j = Some name ∧
       gts !! j = Some gt ∧ rns !! j = Some rn ∧ fps !! j = Some fp ∧ cps !! j = Some cp ∧
       ds !! j = Some d ∧
       build_dataset name "train" (Args.set_overrides gt rn fp cp a) = Ok d) →
  Args.combine_datasets a !! i = Some name →
  gts !! i = Some gt → rns !! i = Some rn → fps !! i = Some fp → cps !! i = Some cp →
  build_dataset name "train" (Args.set_overrides gt rn fp cp a) = Raise e →
  ∃ (w' : World) (evs : list Event),
    build_train_dataset w = (Raise e, w') ∧
    Args.GT_type (args w') = gt ∧
    Args.refexp_dataset_name (args w') = rn ∧
    Args.flickr_img_path (args w') = fp ∧
    Args.coco_path (args w') = cp ∧
    trace w' = trace w ++ evs ∧
    length evs = S i ∧
    evs !! i = Some (EvBuildDataset name "train" (args w')).
Proof.
  intros a Hgt Hrn Hfp Hcp Hprefix Hname Hg Hr Hf Hc Hraise.
  destruct (cycle_loop_ok a gts rns fps cps ds i 0 [] w)
    as (w1 & evs & Hrun & Hsame & Hrank & Htrace & Hlen & _).
  { apply same_fixed_refl. }
  { intros j [_ Hj]. apply Hprefix. exact Hj. }
  exists (mkWorld (Args.set_overrides gt rn fp cp a) (rank w)
            (trace w ++ evs ++ [EvBuildDataset name "train" (Args.set_overrides gt rn fp cp a)])),
    (evs ++ [EvBuildDataset name "train" (Args.set_overrides gt rn fp cp a)]).
  split; [|repeat split].
  - unfold build_train_dataset. unfold bind at 1, get_args at 1.
    fold a. rewrite Hrn. cbn [is_list]. rewrite Hgt, Hfp, Hcp.
    pose proof (lookup_lt_Some _ _ _ Hname) as Hlt.
    replace (length (Args.combine_datasets a))
      with (i + S (length (Args.combine_datasets a) - S i))%nat by lia.
    rewrite seq_app. cbn [seq]. unfold bind at 1.
    rewrite for_acc_app, Hrun. cbn [for_acc Nat.add]. unfold bind at 1.
    rewrite (cycle_body_build_raises a gts rns fps cps i _ w1 name gt rn fp cp e) by assumption.
    rewrite Hrank, Htrace, <- app_assoc. reflexivity.
  - rewrite length_app, Hlen. cbn. lia.
  - cbn [args]. rewrite lookup_app_r by lia. rewrite Hlen, Nat.sub_diag. reflexivity.
Qed.

Lemma plain_loop_ok {B} (image_set : string) (wrap : string → Dataset → B)
    (names : list string) :
  ∀ (ds : list Dataset) (acc : list B) (w : World),
    Forall2 (λ name d, build_dataset name image_set (args w) = Ok d) names ds →
    for_acc names
      (fun name acc => bind (call_build_dataset name image_set)
                         (fun d => ret (acc ++ [wrap name d]))) acc w =
      (Ok (acc ++ zip_with wrap names ds),
       mkWorld (args w) (rank w)
         (trace w ++ map (λ name, EvBuildDataset name image_set (args w)) names)).
Proof.
  induction names as [|name names IH]; intros ds acc w H.
  - apply Forall2_nil_inv_l in H as ->. cbn. rewrite !app_nil_r. by destruct w.
  - apply Forall2_cons_inv_l in H as (d & ds' & Hd & Hrest & ->).
    cbn [for_acc]. unfold bind at 1.
    assert (Hstep : bind (call_build_dataset name image_set)
                      (fun d => ret (acc ++ [wrap name d])) w =
                    (Ok (acc ++ [wrap name d]),
                     mkWorld (args w) (rank w)
                       (trace w ++ [EvBuildDataset name image_set (args w)]))).
    { unfold call_build_dataset. munfold. rewrite Hd. reflexivity. }
    rewrite Hstep.
    rewrite (IH ds' (acc ++ [wrap name d])
               (mkWorld (args w) (rank w)
                  (trace w ++ [EvBuildDataset name image_set (args w)])) Hrest).
    cbn. rewrite <- !app_assoc. reflexivity.
Qed.

(** X5. With a non-empty validation list whose builds succeed, the
    validation phase returns one entry per name, in order, each holding the
    dataset built for the "val" split and its COCO api; in multi-task mode
    (list-valued overrides, "multitask" in the configuration path) the
    overrides are first reset to the canonical values and every build reads
    those, in single-task mode the configuration is left as it was. *)
Theorem val_phase_entries (w : World) (ds : list Dataset) :
  let a := args w in
  let names := Args.combine_datasets_val a in
  let a' := if is_list (Args.refexp_dataset_name a) then canonical a else a in
  names ≠ [] →
  (is_list (Args.refexp_dataset_name a) = true →
   contains "multitask" (Args.dataset_config a) = true) →
  Forall2 (λ name d, build_dataset name "val" a' = Ok d) names ds →
  val_phase w =
    (Ok (zip_with (λ name d, mkVal name d (get_coco_api_from_dataset d)) names ds),
     mkWorld a' (rank w) (trace w ++ map (λ name, EvBuildDataset name "val" a') names)) ∧
  (is_list (Args.refexp_dataset_name a) = true →
   Args.GT_type a' = PStr "merged_karpathy" ∧
   Args.refexp_dataset_name a' = PStr "refcocog" ∧
   Args.flickr_img_path a' = PStr "data/Flickr30k/flickr30k_images_split/train" ∧
   Args.coco_path a' = PStr "data/coco").
Proof.
  intros a names a' Hne Hmulti Hbuilds.
  split; [|intros Hl; subst a'; rewrite Hl; repeat split].
  unfold val_phase. unfold bind at 1, get_args at 1. fold a. fold names.
  destruct names as [|n0 names'] eqn:En; [congruence|]. cbn [length Nat.eqb].
  rewrite <- En in *. unfold bind at 1.
  destruct (is_list (Args.refexp_dataset_name a)) eqn:El.
  - rewrite (Hmulti eq_refl).
    rewrite (reset_overrides_ok a w (same_fixed_refl w)).
    fold (canonical a). subst a'.
    apply (plain_loop_ok "val" (λ name d, mkVal name d (get_coco_api_from_dataset d))
             names ds [] (mkWorld (canonical a) (rank w) (trace w))).
    exact Hbuilds.
  - subst a'. unfold ret.
    apply (plain_loop_ok "val" (λ name d, mkVal name d (get_coco_api_from_dataset d))
             names ds [] w).
    exact Hbuilds.
Qed.

(** X6. In multi-task mode the validation phase asserts that the
    configuration path contains "multitask": with a path that does not, it
    raises a bare [AssertionError] before any validation dataset is built and
    with the configuration untouched. *)
Theorem val_phase_needs_multitask_config (w : World) :
  Args.combine_datasets_val (args w) ≠ [] →
  is_list (Args.refexp_dataset_name (args w)) = true →
  contains "multitask" (Args.dataset_config (args w)) = false →
  val_phase w = (Raise (AssertionError ""), w).
Proof.
  intros Hne Hl Hm. unfold val_phase. munfold.
  destruct (Args.combine_datasets_val (args w)); [congruence|]. cbn.
  rewrite Hl, Hm. reflexivity.
Qed.

(** X7. Outside evaluation-only mode a training-data phase that returns
    leaves a scalar [refexp_dataset_name] behind, in multi-task mode too (the
    reset of lines 359-360): the multi-task block of the validation phase
    (lines 387-390), assert included, can only run in evaluation-only mode. *)
Theorem train_data_phase_leaves_scalar (w w' : World) (d : option Dataset) :
  Args.eval (args w) = false →
  train_data_phase w = (Ok d, w') →
  is_list (Args.refexp_dataset_name (args w')) = false.
Proof.
  intros Heval Hrun.
  destruct (is_list (Args.refexp_dataset_name (args w))) eqn:El.
  - revert Hrun. unfold train_data_phase. unfold bind at 1, get_args at 1.
    rewrite Heval. destruct (_ && _); [discriminate|]. cbn [negb].
    unfold bind at 1. unfold build_train_dataset. unfold bind at 1, get_args at 1.
    rewrite El. unfold bind at 1.
    destruct (for_acc _ _ _ _) as [[l|e] w1]; [|discriminate].
    unfold bind at 1, lift at 1. destruct (ConcatDataset l); [|discriminate].
    unfold reset_overrides. munfold. cbn. intros [= _ <-]. reflexivity.
  - destruct (keeps_scalar_train_data (args w) (rank w) (trace w) El w (Ok d) w'
                (builds_under_init w "train") Hrun) as (-> & _). exact El.
Qed.

(** X8. After the reset to the canonical values, whose ground-truth type is
    "merged_karpathy", no evaluator built from the configuration merges boxes:
    the flag [GT_type == "merged"] of the flickr evaluators is false for every
    dataset name and in captioning mode too. *)
Theorem evaluators_after_reset_never_merge (w w' : World) (b : BaseDs)
    (name : string) (cap : bool) :
  reset_overrides w = (Ok tt, w') →
  Forall (λ ev, merge_boxes_of ev ≠ Some true) (build_evaluator_list (args w') b name cap).
Proof.
  unfold reset_overrides. munfold. intros [= <-]. cbn [args].
  unfold build_evaluator_list. cbn [Args.GT_type Args.set_coco_path Args.set_flickr_img_path
    Args.set_refexp_dataset_name Args.set_GT_type Args.with_mutable py_eq_str].
  destruct (contains "flickr" name), cap, (Args.no_detection _), (contains "refexp" name);
    cbn; repeat constructor; cbn; congruence.
Qed.

(** X9. The evaluator list is empty exactly when detection is off and the
    dataset is not a flickr one evaluated in captioning mode; the COCO bbox
    evaluator is in it exactly when detection is on; it never holds more than
    four evaluators. *)
Theorem build_evaluator_list_shape (a : Args.t) (b : BaseDs) (name : string) (cap : bool) :
  (build_evaluator_list a b name cap = [] ↔
     Args.no_detection a = true ∧ contains "flickr" name && cap = false) ∧
  (Args.no_detection a = false ↔
     CocoEvaluator b ["bbox"] false ∈ build_evaluator_list a b name cap) ∧
  (length (build_evaluator_list a b name cap) ≤ 4)%nat.
Proof.
  unfold build_evaluator_list.
  destruct (contains "flickr" name), cap, (Args.no_detection a), (contains "refexp" name);
    cbn; (split; [|split]); try lia;
    rewrite ?elem_of_cons, ?elem_of_nil; intuition (try discriminate; try congruence).
Qed.

Lemma load_checkpoint_world (src : string) (w w' : World) (r : result checkpoint) :
  load_checkpoint src w = (r, w') →
  w' = mkWorld (args w) (rank w) (trace w ++ [load_event src]).
Proof.
  unfold load_checkpoint, load_event. munfold.
  destruct (String.prefix _ _); cbn;
    [destruct (urls !! _)|destruct (files !! _)]; intros [= _ <-]; reflexivity.
Qed.

(** X10. The [--load] path, whatever its outcome: it touches neither the
    configuration nor the rank, issues exactly one load (of [args.load]) when
    the option is set and nothing otherwise, returns the nets unchanged when
    the option is unset, and when it returns it never changes the optimizer;
    with EMA on it overwrites the shadow with the model just loaded, with EMA
    off it leaves the shadow alone. *)
Theorem load_phase_effects (n : Nets) (w w' : World) (r : result Nets) :
  load_phase n w = (r, w') →
  w' = mkWorld (args w) (rank w)
         (trace w ++ if truthy (Args.load (args w)) then [load_event (Args.load (args w))] else []) ∧
  (truthy (Args.load (args w)) = false → r = Ok n) ∧
  (∀ n', r = Ok n' →
     optimizer n' = optimizer n ∧
     (Args.ema (args w) = false → model_ema n' = model_ema n) ∧
     (Args.ema (args w) = true → truthy (Args.load (args w)) = true →
        model_ema n' = Some (model n'))).
Proof.
  unfold load_phase. unfold bind at 1, get_args at 1.
  destruct (truthy (Args.load (args w))) eqn:Hl.
  - unfold bind at 1.
    destruct (load_checkpoint _ w) as [[ck|e] w0] eqn:Hload;
      pose proof (load_checkpoint_world _ _ _ _ Hload) as ->.
    + unfold get_model_entry. munfold.
      destruct (ck_model_ema ck) as [v|].
      * destruct (load_state_dict false v (model n)); intros [= <- <-];
          (split; [reflexivity|]); (split; [discriminate|]);
          intros n' [= <-]; cbn; repeat split; intros Hema; rewrite ?Hema; auto.
      * destruct (ck_model ck); cbn;
          [destruct (load_state_dict _ _ _)|]; intros [= <- <-];
          (split; [reflexivity|]); (split; [discriminate|]);
          intros n' [= <-]; cbn; repeat split; intros Hema; rewrite ?Hema; auto.
    + intros [= <- <-]. split; [reflexivity|]. split; [discriminate|]. intros ? [=].
  - intros [= <- <-]. rewrite app_nil_r. split; [by destruct w|].
    split; [reflexivity|]. intros n' [= <-]. repeat split; auto. discriminate.
Qed.

(** X11. A checkpoint whose "model_ema" entry is [None] (what [main] saves
    with EMA off) is read differently by the two paths: the frozen-weights
    path tests the entry's truth and falls back to the "model" weights, the
    [--load] path tests only the key's presence and hands [None] to
    [load_state_dict]. *)
Theorem none_ema_entry_frozen_vs_load (w w0 : World) (n : Nets) (ck : checkpoint)
    (sd : StateDict) :
  ck_model_ema ck = Some None →
  ck_model ck = Some sd →
  (∀ fw, Args.frozen_weights (args w) = Some fw →
     load_checkpoint (Args.resume (args w)) w = (Ok ck, w0) →
     frozen_phase n w =
       match detr_load_state_dict sd (model n) with
       | Ok m => (Ok (mkNets m (if Args.ema (args w) then Some m else model_ema n)
                        (optimizer n)), w0)
       | Raise e => (Raise e, w0)
       end) ∧
  (truthy (Args.load (args w)) = true →
   load_checkpoint (Args.load (args w)) w = (Ok ck, w0) →
   load_phase n w =
     match load_state_dict false None (model n) with
     | Ok m => (Ok (mkNets m (if Args.ema (args w) then Some m else model_ema n)
                      (optimizer n)), w0)
     | Raise e => (Raise e, w0)
     end).
Proof.
  intros Hema Hmodel. split.
  - intros fw Hfw Hload. unfold frozen_phase, get_model_entry. munfold.
    rewrite Hfw, Hload, Hema, Hmodel.
    destruct (detr_load_state_dict _ _); reflexivity.
  - intros Hl Hload. unfold load_phase. munfold.
    rewrite Hl, Hload, Hema.
    destruct (load_state_dict _ _ _); reflexivity.
Qed.

(** X12. Resuming from a checkpoint with no "model" entry raises
    [KeyError "model"] right after the load; from one that has the weights
    but lacks "optimizer" or "epoch" (a weights-only file) the restore keeps
    the optimizer and the starting epoch as they are, in training mode too. *)
Theorem resume_partial_checkpoint (w w0 : World) (n : Nets) (ck : checkpoint) :
  truthy (Args.resume (args w)) = true →
  load_checkpoint (Args.resume (args w)) w = (Ok ck, w0) →
  (ck_model ck = None → resume_phase n w = (Raise (KeyError "model"), w0)) ∧
  (∀ sd m, ck_model ck = Some sd →
     ck_optimizer ck = None ∨ ck_epoch ck = None →
     load_state_dict true (Some sd) (model n) = Ok m →
     resume_restore ck n w0 = (Ok (mkNets m (model_ema n) (optimizer n)), w0)).
Proof.
  intros Hres Hload. split.
  - intros Hm. unfold resume_phase. munfold. rewrite Hres, Hload.
    unfold resume_restore, get_model_entry. munfold. rewrite Hm. reflexivity.
  - intros sd m Hm Hpart Hl. unfold resume_restore, get_model_entry. munfold.
    rewrite Hm, Hl.
    destruct (negb _), (ck_optimizer ck), (ck_epoch ck); try reflexivity;
      destruct Hpart; discriminate.
Qed.

Lemma dict_set_keys (d : Stats) k v k' :
  k' ∈ (dict_set d k v).*1 → k' = k ∨ k' ∈ d.*1.
Proof.
  induction d as [|[k0 v0] d IH]; cbn.
  - rewrite elem_of_cons, elem_of_nil. intuition.
  - destruct (String.eqb k0 k) eqn:E; cbn; rewrite !elem_of_cons; intuition.
Qed.

Lemma dict_set_NoDup (d : Stats) k v : NoDup d.*1 → NoDup (dict_set d k v).*1.
Proof.
  induction d as [|[k0 v0] d IH]; cbn; intros Hnd.
  - apply NoDup_singleton.
  - apply NoDup_cons in Hnd as [Hnin Hnd].
    destruct (String.eqb k0 k) eqn:E; cbn; apply NoDup_cons; split; auto.
    intros Hin. apply dict_set_keys in Hin as [->|Hin]; [|auto].
    by rewrite String.eqb_refl in E.
Qed.

Lemma dict_update_keys f (src d : Stats) k' :
  k' ∈ (dict_update_with f d src).*1 → k' ∈ d.*1 ∨ ∃ k, k ∈ src.*1 ∧ k' = f k.
Proof.
  unfold dict_update_with. revert d.
  induction src as [|[k v] src IH]; intros d; cbn; [auto|].
  intros Hin. apply IH in Hin as [Hin|(k0 & Hk0 & ->)].
  - apply dict_set_keys in Hin as [->|Hin]; [|auto].
    right. exists k. split; [apply list_elem_of_here|reflexivity].
  - right. exists k0. split; [by apply list_elem_of_further|reflexivity].
Qed.

Lemma dict_update_NoDup f (src d : Stats) :
  NoDup d.*1 → NoDup (dict_update_with f d src).*1.
Proof.
  unfold dict_update_with. revert d.
  induction src as [|[k v] src IH]; intros d Hnd; cbn; [exact Hnd|].
  apply IH. by apply dict_set_NoDup.
Qed.

Lemma run_evaluation_loop (test_model : Model) (vt : list ValEntry) :
  ∀ (acc stats : Stats) (w w' : World),
    for_acc vt
      (fun item test_stats =>
         bind get_args (fun a =>
         let evaluator_list :=
           build_evaluator_list a (base_ds item) (dataset_name item) (Args.do_caption a) in
         bind (emit (EvEvaluate (dataset_name item) evaluator_list)) (fun _ =>
         bind (lift (evaluate test_model (dataset_name item) (dataloader item)
                       evaluator_list a)) (fun curr_test_stats =>
         ret (dict_update_with id test_stats
                (dict_update_with (fun k => dataset_name item +:+ "_" +:+ k) []
                   curr_test_stats))))))
      acc w = (Ok stats, w') →
    w' = mkWorld (args w) (rank w) (trace w ++ map (evaluate_event (args w)) vt) ∧
    (NoDup acc.*1 → NoDup stats.*1) ∧
    ∀ key, key ∈ stats.*1 →
      key ∈ acc.*1 ∨ ∃ item k, item ∈ vt ∧ key = dataset_name item +:+ "_" +:+ k.
Proof.
  induction vt as [|item vt IH]; intros acc stats w w'.
  - cbn. intros [= <- <-]. rewrite app_nil_r. split; [by destruct w|]. auto.
  - cbn [for_acc]. unfold bind at 1. munfold. cbn.
    destruct (evaluate _ _ _ _ _) as [curr|e]; [|discriminate].
    intros Hrun. apply IH in Hrun as (-> & Hnd & Hkeys). cbn.
    split; [by rewrite <- app_assoc|]. split.
    + intros Hacc. apply Hnd. by apply dict_update_NoDup.
    + intros key Hkey. apply Hkeys in Hkey as [Hkey|(it & k & Hit & ->)].
      * apply dict_update_keys in Hkey as [Hkey|(k0 & Hk0 & ->)]; [by left|].
        apply dict_update_keys in Hk0 as [Hk0|(k1 & _ & ->)];
          [by apply elem_of_nil in Hk0|].
        right. exists item, k1. split; [apply list_elem_of_here|reflexivity].
      * right. exists it, k. split; [by apply list_elem_of_further|reflexivity].
Qed.

(** X13. An evaluation pass that returns has issued exactly one [evaluate]
    call per validation entry, in order, each with the evaluator list built
    for that entry, and has not touched the configuration; the statistics it
    returns hold no key twice, and every key is "<dataset name>_<key>" for one
    of the entries. *)
Theorem run_evaluation_outcome (n : Nets) (vt : list ValEntry) (w w' : World)
    (stats : Stats) :
  run_evaluation n vt w = (Ok stats, w') →
  w' = mkWorld (args w) (rank w) (trace w ++ map (evaluate_event (args w)) vt) ∧
  NoDup stats.*1 ∧
  ∀ key, key ∈ stats.*1 →
    ∃ item k, item ∈ vt ∧ key = dataset_name item +:+ "_" +:+ k.
Proof.
  unfold run_evaluation. intros Hrun.
  apply run_evaluation_loop in Hrun as (Hw & Hnd & Hkeys).
  split; [exact Hw|]. split; [apply Hnd; constructor|].
  intros key Hkey. apply Hkeys in Hkey as [Hkey|Hkey]; [|exact Hkey].
  by apply elem_of_nil in Hkey.
Qed.

(** X14. A distributed run without [--from_deepspeed] sets up its engines
    without error and then fails in the first training step: the call of
    [train_one_epoch] reads [deepspeed_engine], which only the deepspeed
    branch (lines 524-531) binds. *)
Theorem distributed_without_deepspeed (np : Z) (s : Sampler) (dt : option Dataset)
    (vt : list ValEntry) (n : Nets) (w : World) :
  Args.distributed (args w) = true →
  Args.from_deepspeed (args w) = false →
  ∃ S, init_engines np (Some s) dt vt n w = (Ok (n, S), w) ∧
       ∀ epoch ls,
         train_step S epoch ls w = (Raise (UnboundLocalError "deepspeed_engine"), w).
Proof.
  intros Hd Hds. unfold init_engines. munfold. rewrite Hds.
  eexists. split; [reflexivity|].
  intros epoch ls. unfold train_step. munfold. rewrite Hd. reflexivity.
Qed.

Ltac keep_evaluating := keep_stays ltac:(intros ? [? ?]; split; assumption).

Lemma keeps_evaluating_startup se t0 :
  let P := stays (evaluating se) (λ ev, negb (is_train ev)) t0 in
  keeps P build_model_phase ∧ (∀ m, keeps P (build_optimizer m)) ∧
  keeps P train_data_phase ∧ keeps P val_phase ∧
  (∀ n, keeps P (frozen_phase n)) ∧ (∀ n, keeps P (load_phase n)) ∧
  (∀ n vt, keeps P (run_evaluation n vt)).
Proof.
  cbv zeta. repeat apply conj; intros;
    unfold build_model_phase, build_optimizer, train_data_phase, build_train_dataset,
      cycle_body, val_phase, reset_overrides, call_build_dataset, frozen_phase, load_phase,
      run_evaluation, get_model_entry, load_checkpoint;
    keep_evaluating.
Qed.

(** In evaluation-only mode the restore of lines 443-446 skips the
    assignment to [args.start_epoch]. *)
Lemma keeps_evaluating_resume se t0 n :
  keeps (stays (evaluating se) (λ ev, negb (is_train ev)) t0) (resume_phase n).
Proof.
  unfold resume_phase.
  apply keeps_bind; [apply keeps_get_args|intros a].
  destruct (truthy _); [|apply keeps_ret].
  apply keeps_bind; [unfold load_checkpoint; keep_evaluating|intros ck].
  apply keeps_bind; [|intros n1; unfold resume_ema; keep_evaluating].
  unfold resume_restore, get_model_entry.
  apply keeps_bind; [keep_evaluating|intros sd].
  apply keeps_bind; [keep_evaluating|intros m].
  apply keeps_bind_args. intros w ((He & _) & _). rewrite He. cbn. apply keeps_ret.
Qed.

(** X15. In evaluation-only mode [main], whether it returns or raises, never
    calls [train_one_epoch] and leaves [args.start_epoch] as it was: a
    checkpoint resumed from does not move it. *)
Theorem eval_only_never_trains (w w' : World) (r : result unit) :
  Args.eval (args w) = true →
  main w = (r, w') →
  Args.start_epoch (args w') = Args.start_epoch (args w) ∧
  ∃ evs, trace w' = trace w ++ evs ∧ ∀ epoch, EvTrainOneEpoch epoch ∉ evs.
Proof.
  intros Heval Hrun.
  set (P := stays (evaluating (Args.start_epoch (args w))) (λ ev, negb (is_train ev)) (trace w)).
  assert (Hk : keeps P main).
  { destruct (keeps_evaluating_startup (Args.start_epoch (args w)) (trace w))
      as (Hbm & Hbo & Htd & Hval & Hfr & Hld & Hev).
    unfold main.
    apply keeps_bind; [exact Hbm|intros mm].
    apply keeps_bind; [apply Hbo|intros o].
    apply keeps_bind; [exact Htd|intros dt].
    apply keeps_bind; [apply keeps_get_args|intros a].
    apply keeps_bind; [exact Hval|intros vt].
    apply keeps_bind; [apply Hfr|intros n1].
    apply keeps_bind; [apply Hld|intros n2].
    apply keeps_bind; [apply keeps_evaluating_resume|intros n3].
    apply keeps_bind_args. intros w1 ((He & _) & _). rewrite He.
    apply keeps_bind; [apply Hev|intros ?; apply keeps_ret]. }
  destruct (Hk w r w') as ((_ & Hs) & evs & Ht & Hall);
    [apply stays_init; by split|exact Hrun|].
  split; [exact Hs|]. exists evs. split; [exact Ht|].
  intros epoch Hin. rewrite Forall_forall in Hall. by specialize (Hall _ Hin).
Qed.

(** X4. The mode test of line 345 looks at [refexp_dataset_name] alone: when
    that field is a list while [GT_type] is a non-empty string, the first
    training dataset is built under a ground-truth type that is the first
    character of that string (Python indexes the string), not the string
    itself. *)
Theorem cycling_indexes_string_GT_type (w w' : World) (r : result Dataset) (s ch : string)
    (rns : list PyVal) (name : string) (rn fp cp : PyVal) :
  Args.GT_type (args w) = PStr s →
  Args.refexp_dataset_name (args w) = PList rns →
  Args.combine_datasets (args w) !! 0%nat = Some name →
  code_points s !! 0%nat = Some ch →
  rns !! 0%nat = Some rn →
  py_getitem (Args.flickr_img_path (args w)) 0 = Ok fp →
  py_getitem (Args.coco_path (args w)) 0 = Ok cp →
  build_train_dataset w = (r, w') →
  ∃ (a0 : Args.t) (evs : list Event),
    trace w' = trace w ++ EvBuildDataset name "train" a0 :: evs ∧
    Args.GT_type a0 = PStr ch ∧
    Args.refexp_dataset_name a0 = rn.
Proof.
  intros Hgt Hrn Hname Hch Hr Hfp Hcp.
  assert (Hg : py_getitem (PStr s) 0 = Ok (PStr ch)).
  { unfold py_getitem. rewrite Hch. reflexivity. }
  unfold build_train_dataset. unfold bind at 1, get_args at 1.
  rewrite Hrn. cbn [is_list]. rewrite Hgt.
  destruct (Args.combine_datasets (args w)) as [|n0 names] eqn:En; [discriminate|].
  injection Hname as ->. cbn [length seq for_acc].
  set (a0 := Args.set_overrides (PStr ch) rn fp cp (args w)).
  set (ev := EvBuildDataset name "train" a0).
  set (w1 := mkWorld a0 (rank w) (trace w ++ [ev])).
  assert (Hfirst : ∃ r0,
            cycle_body (PStr s) (PList rns) (Args.flickr_img_path (args w))
              (Args.coco_path (args w)) 0 [] w = (r0, w1)).
  { unfold cycle_body, call_build_dataset. unfold bind at 1, get_args at 1.
    rewrite En. unfold bind at 1, lift at 1. cbn [lookup list_lookup].
    unfold bind at 1, lift at 1. rewrite Hg.
    unfold bind at 1, lift at 1. cbn [py_getitem]. rewrite Hr.
    munfold. cbn. rewrite Hfp. cbn. rewrite Hcp. cbn.
    destruct (build_dataset _ _ _); eexists; reflexivity. }
  destruct Hfirst as [r0 Hfirst].
  intros Hrun.
  assert (Hext : stays anything (λ _, true) (trace w ++ [ev]) w').
  { revert Hrun. unfold bind at 1. unfold bind at 1. rewrite Hfirst.
    destruct r0 as [acc|e];
      [|intros [= _ <-]; split; [exact I|]; exists []; by rewrite app_nil_r].
    intros Hrun.
    assert (Hk : keeps (stays anything (λ _, true) (trace w ++ [ev]))
                   (bind (for_acc (seq 1 (length names))
                            (cycle_body (PStr s) (PList rns)
                               (Args.flickr_img_path (args w)) (Args.coco_path (args w))) acc)
                      (fun dataset_list =>
                         bind (lift (ConcatDataset dataset_list))
                           (fun dataset_train => bind reset_overrides
                                                   (fun _ => ret dataset_train))))).
    { unfold cycle_body, call_build_dataset, reset_overrides. keep_quiet. }
    apply (Hk w1 r w'); [|exact Hrun].
    split; [exact I|]. exists []. by rewrite app_nil_r. }
  destruct Hext as (_ & evs & Hevs & _). exists a0, evs.
  split; [by rewrite Hevs, <- app_assoc|]. split; reflexivity.
Qed.

End Properties.

(** * The properties on concrete runs *)

(** The model runs to completion in evaluation-only mode: one evaluation of
    the validation dataset, under the detection and flickr evaluators. *)
Example main_eval_only_runs :
  let a := Demo.cfg [] ["flickr"] (PStr "") (PStr "") (PStr "") (PStr "")
             false true None "" "" in
  main (Demo.world a 0) =
    (Ok tt,
     mkWorld (C := Demo.collab) a 0
       [EvBuildModel; EvMakeOptimizer AdamW; EvBuildDataset "flickr" "val" a;
        EvEvaluate (C := Demo.collab) "flickr"
          [CocoEvaluator "coco:flickr/val/" ["bbox"] false;
           FlickrEvaluator "data/flickr" "val" false]]).
Proof. reflexivity. Qed.

(** C1, as the specification states it, fails on a multi-task configuration
    with no training dataset (the four lists are empty, as long as the list
    of datasets): outside evaluation-only mode the check of line 341 raises
    before the assembly, no dataset is built and the override fields are not
    reset to the canonical values. *)
Lemma C1_counterexample :
  let a := Demo.cfg [] ["flickr"] (PList []) (PList []) (PList []) (PList [])
             false false None "" "" in
  Args.eval a = false ∧
  py_len (Args.GT_type a) = length (Args.combine_datasets a) ∧
  py_len (Args.refexp_dataset_name a) = length (Args.combine_datasets a) ∧
  py_len (Args.flickr_img_path a) = length (Args.combine_datasets a) ∧
  py_len (Args.coco_path a) = length (Args.combine_datasets a) ∧
  is_list (Args.refexp_dataset_name a) = true ∧
  train_data_phase (Demo.world a 0) =
    (Raise (RuntimeError "Please provide at least one training dataset"), Demo.world a 0) ∧
  main (Demo.world a 0) =
    (Raise (RuntimeError "Please provide at least one training dataset"),
     mkWorld (C := Demo.collab) a 0 [EvBuildModel; EvMakeOptimizer AdamW]) ∧
  Args.GT_type (args (snd (main (Demo.world a 0)))) ≠ PStr "merged_karpathy" ∧
  Args.refexp_dataset_name (args (snd (main (Demo.world a 0)))) ≠ PStr "refcocog".
Proof.
  cbv zeta. repeat split; try reflexivity; discriminate.
Qed.

(** C1 (amended) on the two-dataset scenario: "flickr" is built under
    "merged", "refcocog" under "merged_karpathy", each with its own paths,
    and the configuration ends on the canonical values. *)
Lemma C1_witness :
  ∃ (w' : World (C := Demo.collab)) (a0 a1 : Args.t),
    train_data_phase (Demo.world Demo.multitask_cfg 0) =
      (Ok (Some "flickr/train/merged;refcocog/train/merged_karpathy;"), w') ∧
    trace w' = [EvBuildDataset "flickr" "train" a0; EvBuildDataset "refcocog" "train" a1] ∧
    (Args.GT_type a0 = PStr "merged" ∧ Args.refexp_dataset_name a0 = PStr "refcoco" ∧
     Args.flickr_img_path a0 = PStr "data/f30k" ∧ Args.coco_path a0 = PStr "data/coco_a") ∧
    (Args.GT_type a1 = PStr "merged_karpathy" ∧ Args.refexp_dataset_name a1 = PStr "refcocog" ∧
     Args.flickr_img_path a1 = PStr "data/f30k_b" ∧ Args.coco_path a1 = PStr "data/coco_b") ∧
    Args.GT_type (args w') = PStr "merged_karpathy" ∧
    Args.refexp_dataset_name (args w') = PStr "refcocog".
Proof.
  destruct (C1_multitask_cycling (C := Demo.collab) (Demo.world Demo.multitask_cfg 0)
              [PStr "merged"; PStr "merged_karpathy"]
              [PStr "refcoco"; PStr "refcocog"]
              [PStr "data/f30k"; PStr "data/f30k_b"]
              [PStr "data/coco_a"; PStr "data/coco_b"]
              ["flickr/train/merged"; "refcocog/train/merged_karpathy"]
              "flickr/train/merged;refcocog/train/merged_karpathy;"
              eq_refl ltac:(discriminate)
              eq_refl eq_refl eq_refl eq_refl eq_refl eq_refl eq_refl eq_refl eq_refl)
    as (evs & w' & Hphase & _ & Htrace & Hlen & Hevs & Hgt & Hrn & _).
  - intros [|[|i]] name gt rn fp cp Hn Hg Hr Hf Hc; cbn in *.
    + injection Hn as <-. injection Hg as <-. eexists. split; reflexivity.
    + injection Hn as <-. injection Hg as <-. eexists. split; reflexivity.
    + discriminate.
  - reflexivity.
  - destruct (Hevs 0%nat _ _ _ _ _ eq_refl eq_refl eq_refl eq_refl eq_refl)
      as (a0 & H0 & G0 & R0 & F0 & P0 & _).
    destruct (Hevs 1%nat _ _ _ _ _ eq_refl eq_refl eq_refl eq_refl eq_refl)
      as (a1 & H1 & G1 & R1 & F1 & P1 & _).
    exists w', a0, a1. split; [exact Hphase|].
    split; [|repeat split; assumption].
    rewrite Htrace.
    destruct evs as [|e0 [|e1 [|e2 evs]]]; try discriminate Hlen.
    cbn in H0, H1. injection H0 as ->. injection H1 as ->. reflexivity.
Defined.

(** C2 on a checkpoint of epoch 4, outside evaluation-only mode: the next
    epoch is 5 and the optimizer state is the checkpoint's. *)
Lemma C2_witness :
  ∃ w' : World (C := Demo.collab),
    resume_restore Demo.ckpt_plain Demo.nets0 (Demo.world Demo.default_cfg 0) =
      (Ok (mkNets (C := Demo.collab) "w-epoch4" None 7), w') ∧
    Args.start_epoch (args w') = 5 ∧
    trace w' = [].
Proof.
  destruct (proj1 (proj2 (C2_resume_restore (C := Demo.collab)
                            (Demo.world Demo.default_cfg 0) Demo.nets0
                            Demo.ckpt_plain "w-epoch4" 7 4 eq_refl eq_refl eq_refl))
              "w-epoch4" 7 eq_refl eq_refl eq_refl)
    as (w' & Hrun & Hstart & _ & _ & _ & Htrace).
  exists w'. split; [exact Hrun|]. split; [exact Hstart|exact Htrace].
Defined.

(** C3 on the default, single-process configuration. *)
Lemma C3_witness :
  training_loop (mkSetup (C := Demo.collab) 1000 (Some RandomSampler) (Some "flickr/train/;") [] None None) Demo.nets0
    (Demo.world Demo.default_cfg 0) =
  (Raise (NameError "loss"), Demo.world Demo.default_cfg 0).
Proof.
  apply (C3_training_loop_single_process (C := Demo.collab)); reflexivity.
Defined.

(** Lines 609-630 on their own, without an output directory (the default):
    the new metric, 0.5, strictly exceeds the recorded best, 0.0, and yet no
    best checkpoint is written and the recorded best stays 0.0. *)
Example best_select_without_output_dir :
  let w := Demo.world Demo.default_cfg 0 in
  let ls := mkLoop (C := Demo.collab) Demo.nets0 (Some []) 0%float in
  let test_stats := [("flickr_coco_eval_bbox", SList [0.25%float; 0.5%float])] in
  Args.output_dir (args w) = "" ∧
  is_eval_epoch 0 w = (Ok true, w) ∧
  selection_metric test_stats w = (Ok 0.5%float, w) ∧
  float_gt 0.5%float (best_metric ls) = true ∧
  best_select 0 ls test_stats w = (Ok ls, w).
Proof.
  cbv zeta. repeat split; reflexivity.
Qed.

(** The same with an output directory: the metric is recorded and the best
    checkpoint is written; and with statistics that hold a loss only, the
    metric is NaN and nothing changes. *)
Example best_select_with_output_dir :
  let a := Demo.cfg ["flickr"] ["flickr"] (PStr "") (PStr "") (PStr "") (PStr "")
             false false None "" "out" in
  let ls := mkLoop (C := Demo.collab) Demo.nets0 (Some []) 0%float in
  best_select 0 ls [("flickr_coco_eval_bbox", SList [0.25%float; 0.5%float])] (Demo.world a 0) =
    (Ok (mkLoop (C := Demo.collab) Demo.nets0 (Some []) 0.5%float),
     mkWorld (C := Demo.collab) a 0 [EvSaveCheckpoint [BestCheckpoint] 0]) ∧
  selection_metric [("flickr_loss", SFloat 1%float)] (Demo.world a 0) =
    (Ok nan, Demo.world a 0) ∧
  best_select 0 ls [("flickr_loss", SFloat 1%float)] (Demo.world a 0) =
    (Ok ls, Demo.world a 0).
Proof.
  cbv zeta. repeat split; reflexivity.
Qed.


(** C5 on a checkpoint without "model_ema": the shadow is the model just
    loaded. *)
Lemma C5_witness :
  let a := Demo.cfg ["flickr"] ["flickr"] (PStr "") (PStr "") (PStr "") (PStr "")
             true false None "ckpt.pth" "" in
  resume_phase Demo.nets_ema (Demo.world a 0) =
    (Ok (mkNets (C := Demo.collab) "w-epoch4" (Some "w-epoch4") 7),
     mkWorld (C := Demo.collab) (Args.set_start_epoch 5 a) 0 [EvTorchLoad "ckpt.pth"]).
Proof.
  cbv zeta.
  apply (proj1 (proj2 (C5_resume_ema
           (Demo.world (Demo.cfg ["flickr"] ["flickr"] (PStr "") (PStr "") (PStr "") (PStr "")
                          true false None "ckpt.pth" "") 0)
           _ _ Demo.nets_ema (mkNets (C := Demo.collab) "w-epoch4" (Some "w-init") 7) Demo.ckpt_plain
           eq_refl eq_refl eq_refl eq_refl)));
    reflexivity.
Defined.


(** C8 on the default configuration with detection off, where the
    evaluation statistics would hold no "coco_eval_bbox" key: the run raises
    in its first epoch. *)
Lemma C8_witness :
  let a := Cases.single ["flickr"] ["flickr"] "adam" false false false true None
             "" "" "out" 40 in
  evaluate (Collab := Cases.collab) "w-init" "flickr" "flickr/val/" [] a =
    Ok [("loss", SFloat 1%float)] ∧
  main (Cases.world a 0) =
    (Raise (NameError "loss"), mkWorld (C := Cases.collab) a 0 (Cases.startup_calls a)) ∧
  ∃ e, fst (main (Cases.world a 0)) = Raise e.
Proof.
  cbv zeta. split; [reflexivity|]. split; [reflexivity|].
  exact (proj1 (C8_training_run_raises (C := Cases.collab)
                  (Cases.world (Cases.single ["flickr"] ["flickr"] "adam" false false false
                                  true None "" "" "out" 40) 0)
                  _ _ eq_refl eq_refl ltac:(cbn; lia))).
Defined.

(** C9, as the specification states it, fails on the default configuration
    with the training list emptied: the error of line 341 is raised, but
    only after the model and the optimizer have been built. *)
Lemma C9_counterexample :
  let a := Demo.cfg [] ["flickr"] (PStr "") (PStr "") (PStr "") (PStr "")
             false false None "" "" in
  Args.combine_datasets a = [] ∧ Args.eval a = false ∧
  main (Demo.world a 0) =
    (Raise (RuntimeError "Please provide at least one training dataset"),
     mkWorld (C := Demo.collab) a 0 [EvBuildModel; EvMakeOptimizer AdamW]).
Proof.
  cbv zeta. repeat split; reflexivity.
Qed.

(** C9 (amended) on the same configuration. *)
Lemma C9_witness :
  let a := Demo.cfg [] ["flickr"] (PStr "") (PStr "") (PStr "") (PStr "")
             false false None "" "" in
  main (Demo.world a 0) =
    (Raise (RuntimeError "Please provide at least one training dataset"),
     mkWorld (C := Demo.collab) a 0 [EvBuildModel; EvMakeOptimizer AdamW]) ∧
  exit_status (fst (main (Demo.world a 0))) = 1.
Proof.
  cbv zeta.
  apply (proj1 (proj2 (C9_empty_dataset_lists
           (Demo.world (Demo.cfg [] ["flickr"] (PStr "") (PStr "") (PStr "") (PStr "")
                          false false None "" "") 0)
           _ _ ("w-init", None) 0 eq_refl eq_refl)));
    reflexivity.
Defined.

(** C10 with [--frozen_weights frozen.pth] and no [--resume]: the file
    opened is the one of the empty name, and the load fails. *)
Lemma C10_witness :
  let a := Demo.cfg ["flickr"] ["flickr"] (PStr "") (PStr "") (PStr "") (PStr "")
             false false (Some "frozen.pth") "" "" in
  trace (snd (frozen_phase Demo.nets0 (Demo.world a 0))) = [EvTorchLoad ""] ∧
  frozen_phase Demo.nets0 (Demo.world a 0) =
    (Raise (FileNotFoundError ""), mkWorld (C := Demo.collab) a 0 [EvTorchLoad ""]).
Proof.
  cbv zeta.
  destruct (C10_frozen_reads_resume (C := Demo.collab)
              (Demo.world (Demo.cfg ["flickr"] ["flickr"] (PStr "") (PStr "") (PStr "") (PStr "")
                             false false (Some "frozen.pth") "" "") 0)
              Demo.nets0 "frozen.pth" eq_refl) as [Htrace Hfail].
  split; [exact Htrace|].
  apply Hfail; reflexivity.
Defined.

(** * The further properties on concrete runs *)

(** X1 with [--optimizer lamb]. *)
Lemma X1_witness :
  let a := Cases.single ["flickr"] ["flickr"] "lamb" false false false false None "" "" "" 40 in
  main (Cases.world a 0) =
    (Raise (RuntimeError "Unsupported optimizer lamb"),
     mkWorld (C := Cases.collab) a 0 [EvBuildModel]).
Proof.
  cbv zeta.
  exact (main_unsupported_optimizer (C := Cases.collab)
           (Cases.world (Cases.single ["flickr"] ["flickr"] "lamb" false false false false None
                           "" "" "" 40) 0)
           (mkWorld (C := Cases.collab)
              (Cases.single ["flickr"] ["flickr"] "lamb" false false false false None
                 "" "" "" 40) 0 [EvBuildModel])
           ("w-init", None) eq_refl eq_refl
           ltac:(discriminate) ltac:(discriminate) ltac:(discriminate)).
Defined.

(** X2 on a single-task run whose second dataset cannot be built: the phase
    raises, and the configuration is as it was. *)
Lemma X2_witness :
  let a := Cases.single ["flickr"; "broken"] ["flickr"] "adam" false false false false None
             "" "" "" 40 in
  fst (train_data_phase (Cases.world a 0)) = Raise (CollaboratorError "build_dataset") ∧
  args (snd (train_data_phase (Cases.world a 0))) = a ∧
  ∃ evs, trace (snd (train_data_phase (Cases.world a 0))) = [] ++ evs ∧
         Forall (λ ev, ∃ name, ev = EvBuildDataset (C := Cases.collab) name "train" a) evs.
Proof.
  cbv zeta. split; [reflexivity|].
  exact (scalar_overrides_untouched (C := Cases.collab)
           (Cases.world (Cases.single ["flickr"; "broken"] ["flickr"] "adam" false false false
                           false None "" "" "" 40) 0)
           _ _ eq_refl eq_refl).
Defined.

(** X3 on a multi-task run whose second dataset cannot be built: the
    configuration is left on the second elements of the lists. *)
Lemma X3_witness :
  let a := Cases.multi "configs/multitask.json" ["flickr"; "broken"] ["flickr"]
             Cases.merged_types false in
  ∃ (w' : World (C := Cases.collab)) (evs : list Event),
    build_train_dataset (Cases.world a 0) = (Raise (CollaboratorError "build_dataset"), w') ∧
    Args.GT_type (args w') = PStr "separate" ∧
    Args.refexp_dataset_name (args w') = PStr "refcocog" ∧
    Args.flickr_img_path (args w') = PStr "data/f30k_b" ∧
    Args.coco_path (args w') = PStr "data/coco_b" ∧
    trace w' = [] ++ evs ∧
    length evs = 2%nat ∧
    evs !! 1%nat = Some (EvBuildDataset "broken" "train" (args w')).
Proof.
  cbv zeta.
  apply (cycling_build_failure_leaks (C := Cases.collab)
           (Cases.world (Cases.multi "configs/multitask.json" ["flickr"; "broken"] ["flickr"]
                           Cases.merged_types false) 0)
           [PStr "merged"; PStr "separate"] [PStr "refcoco"; PStr "refcocog"]
           [PStr "data/f30k"; PStr "data/f30k_b"] [PStr "data/coco_a"; PStr "data/coco_b"]
           ["flickr/train/merged"] 1 "broken"
           (PStr "separate") (PStr "refcocog") (PStr "data/f30k_b") (PStr "data/coco_b")
           (CollaboratorError "build_dataset") eq_refl eq_refl eq_refl eq_refl).
  - intros j Hj. destruct j as [|j]; [|lia].
    exists "flickr", (PStr "merged"), (PStr "refcoco"), (PStr "data/f30k"), (PStr "data/coco_a"),
      "flickr/train/merged".
    repeat split; reflexivity.
  - reflexivity.
  - reflexivity.
  - reflexivity.
  - reflexivity.
  - reflexivity.
  - reflexivity.
Defined.

(** X4 with [GT_type] left at the string "merged" in a multi-task
    configuration: the first dataset is built under "m". *)
Lemma X4_witness :
  let a := Cases.multi "configs/multitask.json" ["flickr"; "refcocog"] ["flickr"]
             (PStr "merged") false in
  ∃ (a0 : Args.t) (evs : list (Event (C := Cases.collab))),
    trace (snd (build_train_dataset (Cases.world a 0))) =
      [] ++ EvBuildDataset "flickr" "train" a0 :: evs ∧
    Args.GT_type a0 = PStr "m" ∧
    Args.refexp_dataset_name a0 = PStr "refcoco".
Proof.
  cbv zeta.
  destruct (build_train_dataset
              (Cases.world (Cases.multi "configs/multitask.json" ["flickr"; "refcocog"]
                              ["flickr"] (PStr "merged") false) 0)) as [r w'] eqn:Hrun.
  exact (cycling_indexes_string_GT_type (C := Cases.collab)
           (Cases.world (Cases.multi "configs/multitask.json" ["flickr"; "refcocog"] ["flickr"]
                           (PStr "merged") false) 0)
           w' r "merged" "m" [PStr "refcoco"; PStr "refcocog"] "flickr"
           (PStr "refcoco") (PStr "data/f30k") (PStr "data/coco_a")
           eq_refl eq_refl eq_refl eq_refl eq_refl eq_refl eq_refl Hrun).
Defined.

(** X5 in evaluation-only multi-task mode: both validation datasets are built
    under the canonical ground-truth type. *)
Lemma X5_witness :
  let a := Cases.multi "configs/multitask.json" [] ["flickr"; "refcocog"]
             Cases.merged_types true in
  (∃ w' : World (C := Cases.collab),
     val_phase (Cases.world a 0) =
       (Ok [mkVal (C := Cases.collab) "flickr" "flickr/val/merged_karpathy"
              "coco:flickr/val/merged_karpathy";
            mkVal (C := Cases.collab) "refcocog" "refcocog/val/merged_karpathy"
              "coco:refcocog/val/merged_karpathy"], w') ∧
     Args.GT_type (args w') = PStr "merged_karpathy" ∧
     Args.refexp_dataset_name (args w') = PStr "refcocog" ∧
     trace w' = [EvBuildDataset "flickr" "val" (args w');
                 EvBuildDataset "refcocog" "val" (args w')]).
Proof.
  cbv zeta. eexists. split.
  - exact (proj1 (val_phase_entries (C := Cases.collab)
             (Cases.world (Cases.multi "configs/multitask.json" [] ["flickr"; "refcocog"]
                             Cases.merged_types true) 0)
             ["flickr/val/merged_karpathy"; "refcocog/val/merged_karpathy"]
             ltac:(discriminate) (fun _ => eq_refl) ltac:(repeat constructor))).
  - repeat split; reflexivity.
Defined.

(** X6 with the same lists under a configuration file named "joint.json". *)
Lemma X6_witness :
  let a := Cases.multi "configs/joint.json" [] ["flickr"; "refcocog"]
             Cases.merged_types true in
  val_phase (Cases.world a 0) = (Raise (AssertionError ""), Cases.world a 0).
Proof.
  cbv zeta.
  exact (val_phase_needs_multitask_config (C := Cases.collab)
           (Cases.world (Cases.multi "configs/joint.json" [] ["flickr"; "refcocog"]
                           Cases.merged_types true) 0)
           ltac:(discriminate) eq_refl eq_refl).
Defined.

(** X7 on a multi-task training run. *)
Lemma X7_witness :
  let a := Cases.multi "configs/multitask.json" ["flickr"; "refcocog"] ["flickr"]
             Cases.merged_types false in
  is_list (Args.refexp_dataset_name (args (snd (train_data_phase (Cases.world a 0))))) = false.
Proof.
  cbv zeta.
  destruct (train_data_phase
              (Cases.world (Cases.multi "configs/multitask.json" ["flickr"; "refcocog"]
                              ["flickr"] Cases.merged_types false) 0)) as [[d|e] w'] eqn:Hrun;
    [|vm_compute in Hrun; discriminate Hrun].
  exact (train_data_phase_leaves_scalar (C := Cases.collab)
           (Cases.world (Cases.multi "configs/multitask.json" ["flickr"; "refcocog"] ["flickr"]
                           Cases.merged_types false) 0)
           w' d eq_refl Hrun).
Defined.

(** X8 on a configuration whose ground-truth types include "merged". *)
Lemma X8_witness :
  let a := Cases.multi "configs/multitask.json" ["flickr"; "refcocog"] ["flickr"]
             Cases.merged_types false in
  Forall (λ ev, merge_boxes_of ev ≠ Some true)
    (build_evaluator_list (C := Cases.collab)
       (args (snd (reset_overrides (Cases.world a 0)))) "coco:flickr" "flickr_test" true).
Proof.
  cbv zeta.
  exact (evaluators_after_reset_never_merge (C := Cases.collab)
           (Cases.world (Cases.multi "configs/multitask.json" ["flickr"; "refcocog"] ["flickr"]
                           Cases.merged_types false) 0)
           _ "coco:flickr" "flickr_test" true eq_refl).
Defined.

(** X10 with [--load ema.pth] and EMA on: one load, and the shadow is the
    model just loaded. *)
Lemma X10_witness :
  let a := Cases.single ["flickr"] ["flickr"] "adam" true false false false None
             "ema.pth" "" "" 40 in
  snd (load_phase Cases.nets_ema (Cases.world a 0)) =
    mkWorld (C := Cases.collab) a 0 ([] ++ [EvTorchLoad "ema.pth"]) ∧
  ∀ n', fst (load_phase Cases.nets_ema (Cases.world a 0)) = Ok n' →
        optimizer n' = 0 ∧ model_ema n' = Some (model n').
Proof.
  cbv zeta.
  destruct (load_phase Cases.nets_ema
              (Cases.world (Cases.single ["flickr"] ["flickr"] "adam" true false false false
                              None "ema.pth" "" "" 40) 0)) as [r w'] eqn:Hrun.
  destruct (load_phase_effects (C := Cases.collab) Cases.nets_ema
              (Cases.world (Cases.single ["flickr"] ["flickr"] "adam" true false false false
                              None "ema.pth" "" "" 40) 0)
              w' r Hrun) as (Hw & _ & Hn).
  split; [exact Hw|].
  intros n' Hr. destruct (Hn n' Hr) as (Ho & _ & He).
  split; [exact Ho|exact (He eq_refl eq_refl)].
Defined.

(** X11 on the checkpoint "noema.pth", read by both paths with EMA on. *)
Lemma X11_witness :
  let a := Cases.single ["flickr"] ["flickr"] "adam" true false false false (Some "detr.pth")
             "noema.pth" "noema.pth" "" 40 in
  let w0 := mkWorld (C := Cases.collab) a 0 [EvTorchLoad "noema.pth"] in
  frozen_phase Cases.nets0 (Cases.world a 0) =
    (Ok (mkNets (C := Cases.collab) "w-epoch2" (Some "w-epoch2") 0), w0) ∧
  load_phase Cases.nets0 (Cases.world a 0) = (Raise TypeError, w0).
Proof.
  cbv zeta.
  destruct (none_ema_entry_frozen_vs_load (C := Cases.collab)
              (Cases.world (Cases.single ["flickr"] ["flickr"] "adam" true false false false
                              (Some "detr.pth") "noema.pth" "noema.pth" "" 40) 0)
              (mkWorld (C := Cases.collab)
                 (Cases.single ["flickr"] ["flickr"] "adam" true false false false
                    (Some "detr.pth") "noema.pth" "noema.pth" "" 40) 0
                 [EvTorchLoad "noema.pth"])
              Cases.nets0 Cases.ckpt_no_ema "w-epoch2" eq_refl eq_refl) as [Hf Hl].
  split.
  - apply (Hf "detr.pth"); [reflexivity|vm_compute; reflexivity].
  - apply Hl; [reflexivity|vm_compute; reflexivity].
Defined.

(** X12 on the weights-only file: the optimizer and the starting epoch stay. *)
Lemma X12_witness :
  let a := Cases.single ["flickr"] ["flickr"] "adam" false false false false None
             "" "weights.pth" "" 40 in
  let w0 := mkWorld (C := Cases.collab) a 0 [EvTorchLoad "weights.pth"] in
  resume_restore Cases.ckpt_weights Cases.nets0 w0 =
    (Ok (mkNets (C := Cases.collab) "w-only" None 0), w0).
Proof.
  cbv zeta.
  refine (proj2 (resume_partial_checkpoint (C := Cases.collab)
                  (Cases.world (Cases.single ["flickr"] ["flickr"] "adam" false false false
                                  false None "" "weights.pth" "" 40) 0)
                  _ Cases.nets0 Cases.ckpt_weights eq_refl _)
           "w-only" "w-only" eq_refl (or_introl eq_refl) eq_refl).
  vm_compute. reflexivity.
Defined.

(** X13 on two validation entries, detection on. *)
Lemma X13_witness :
  let a := Cases.single [] ["flickr"; "refexp"] "adam" false false true false None
             "" "" "" 40 in
  let vt := [mkVal (C := Cases.collab) "flickr" "flickr/val/" "coco:flickr/val/";
             mkVal (C := Cases.collab) "refexp" "refexp/val/" "coco:refexp/val/"] in
  let keys := ["flickr_coco_eval_bbox"; "flickr_loss"; "refexp_coco_eval_bbox";
               "refexp_loss"] in
  fst (run_evaluation Cases.nets0 vt (Cases.world a 0)) =
    Ok [("flickr_coco_eval_bbox", SList [0.25%float; 0.5%float]);
        ("flickr_loss", SFloat 1%float);
        ("refexp_coco_eval_bbox", SList [0.25%float; 0.5%float]);
        ("refexp_loss", SFloat 1%float)] ∧
  snd (run_evaluation Cases.nets0 vt (Cases.world a 0)) =
    mkWorld (C := Cases.collab) a 0 ([] ++ map (evaluate_event a) vt) ∧
  NoDup keys ∧
  ∀ key, key ∈ keys → ∃ item k, item ∈ vt ∧ key = dataset_name item +:+ "_" +:+ k.
Proof.
  cbv zeta. split; [vm_compute; reflexivity|].
  refine (run_evaluation_outcome (C := Cases.collab) Cases.nets0
            [mkVal (C := Cases.collab) "flickr" "flickr/val/" "coco:flickr/val/";
             mkVal (C := Cases.collab) "refexp" "refexp/val/" "coco:refexp/val/"]
            (Cases.world (Cases.single [] ["flickr"; "refexp"] "adam" false false true false
                            None "" "" "" 40) 0)
            _
            [("flickr_coco_eval_bbox", SList [0.25%float; 0.5%float]);
             ("flickr_loss", SFloat 1%float);
             ("refexp_coco_eval_bbox", SList [0.25%float; 0.5%float]);
             ("refexp_loss", SFloat 1%float)]
            _).
  vm_compute. reflexivity.
Defined.

(** X14 on a distributed run without deepspeed. *)
Lemma X14_witness :
  let a := Cases.single ["flickr"] ["flickr"] "adam" false true false false None
             "" "" "" 40 in
  ∃ S, init_engines (C := Cases.collab) 1000 (Some DistributedSampler)
         (Some "flickr/train/;") [] Cases.nets0
         (Cases.world a 0) = (Ok (Cases.nets0, S), Cases.world a 0) ∧
       train_step S 0 (mkLoop (C := Cases.collab) Cases.nets0 None 0%float) (Cases.world a 0) =
         (Raise (UnboundLocalError "deepspeed_engine"), Cases.world a 0).
Proof.
  cbv zeta.
  destruct (distributed_without_deepspeed (C := Cases.collab) 1000 DistributedSampler
              (Some "flickr/train/;") [] Cases.nets0
              (Cases.world (Cases.single ["flickr"] ["flickr"] "adam" false true false false
                              None "" "" "" 40) 0)
              eq_refl eq_refl) as (S & Hinit & Hstep).
  exists S. split; [exact Hinit|apply Hstep].
Defined.

(** X15 on an evaluation-only run resumed from the checkpoint of epoch 4:
    the starting epoch stays 0. *)
Lemma X15_witness :
  let a := Cases.single [] ["flickr"] "adam" false false true false None
             "" "ckpt.pth" "out" 40 in
  fst (main (Cases.world a 0)) = Ok tt ∧
  Args.start_epoch (args (snd (main (Cases.world a 0)))) = 0 ∧
  ∃ evs, trace (snd (main (Cases.world a 0))) = [] ++ evs ∧
         ∀ epoch, EvTrainOneEpoch (C := Cases.collab) epoch ∉ evs.
Proof.
  cbv zeta. split; [vm_compute; reflexivity|].
  destruct (main (Cases.world (Cases.single [] ["flickr"] "adam" false false true false None
                                 "" "ckpt.pth" "out" 40) 0)) as [r w'] eqn:Hrun.
  exact (eval_only_never_trains (C := Cases.collab)
           (Cases.world (Cases.single [] ["flickr"] "adam" false false true false None
                           "" "ckpt.pth" "out" 40) 0)
           w' r eq_refl Hrun).
Defined.
